(** * repostats.py: reconciliation of repository traffic metrics

    A shallow embedding of [RepoStats] (src/repostats.py): the aggregation of
    timestamped events into a per-day dictionary ([_get_counts]), the 14-day
    snapshot ([_create_snapshot_dataframe]), the cumulative merge
    ([_merge_dict], [_create_cumulative_dataframe]) and the ranked-list merge
    ([_create_referral_dataframe]).

    Conventions.
    - Python integers are [Z]; the integer columns of a frame are taken
      within the range where pandas' 64-bit sums are exact.
    - A Python [dict] is an insertion-ordered association list ([PyDict]):
      lookups see the first binding of a key, assignment to a present key
      updates it in place, assignment to an absent key appends.
    - A calendar date and a midnight timestamp are both represented by their
      day number (days since the epoch).  The two Python types stay apart:
      [DateKey] is a [datetime.date], [StampKey] is a [pd.Timestamp].
    - A table with two value columns (total_<metric>, unique_<metric>) is a
      list of rows [(index label, counts)].
    - HTTP and file I/O are parameters: the fetched JSON, the clock, and the
      outcome of reading the persisted file ([None] when [pd.read_csv]
      raises). *)

From Stdlib Require Import ZArith List Bool Lia String Sorting Permutation.
Import ListNotations.
Open Scope Z_scope.

(** ** Python dictionaries *)

Module PyDict.
Section Dict.
Context {K V : Type}.
Variable K_eq_dec : forall a b : K, {a = b} + {a <> b}.

Definition dict : Type := list (K * V).

(** [d[k]]; [None] is Python's KeyError. *)
Fixpoint get (k : K) (d : dict) : option V :=
  match d with
  | [] => None
  | (k', v) :: r => if K_eq_dec k k' then Some v else get k r
  end.

(** [k in d] *)
Definition contains (k : K) (d : dict) : bool :=
  match get k d with Some _ => true | None => false end.

(** [d[k] = v] *)
Fixpoint set (k : K) (v : V) (d : dict) : dict :=
  match d with
  | [] => [(k, v)]
  | (k', v') :: r =>
      if K_eq_dec k k' then (k', v) :: r else (k', v') :: set k v r
  end.

(** [list(d)]: the keys in insertion order. *)
Definition keys (d : dict) : list K := map fst d.

End Dict.
End PyDict.

Import PyDict.

(** ** Data model *)

(** One row of a time-series table: the columns total_<metric> and
    unique_<metric>. *)
Record counts : Type := mk_counts { total : Z; unique : Z }.

Definition zero_counts : counts := mk_counts 0 0.

Definition add_counts (a b : counts) : counts :=
  mk_counts (total a + total b) (unique a + unique b).

(** One element of the fetched [data[metric_type]] list.  [timestamp] is the
    instant denoted by the ISO-8601 string, in seconds since the epoch. *)
Record MetricEvent : Type :=
  mk_event { timestamp : Z; count : Z; uniques : Z }.

(** The objects used as dictionary keys and index labels.  [_get_counts]
    builds its keys with [.date()] (line 111, 125): [datetime.date].
    [pd.read_csv(..., parse_dates=["_date"]).to_dict(orient="index")]
    (line 137) yields [pd.Timestamp] keys.  A [date] and a [Timestamp] never
    compare equal as dictionary keys, also when they denote the same day. *)
Inductive index_key : Type :=
| DateKey (day : Z)
| StampKey (day : Z).

Definition index_key_eq_dec (a b : index_key) : {a = b} + {a <> b}.
Proof. decide equality; apply Z.eq_dec. Defined.

Arguments index_key_eq_dec : simpl never.

Definition key_day (k : index_key) : Z :=
  match k with DateKey d => d | StampKey d => d end.

Definition series : Type := @dict index_key counts.

Definition dget : index_key -> series -> option counts := get index_key_eq_dec.
Definition dcontains : index_key -> series -> bool := contains index_key_eq_dec.
Definition dset : index_key -> counts -> series -> series := set index_key_eq_dec.

(** ** Time-series merge: [_merge_dict] (lines 165-178) *)

(** The guard of line 176. *)
Definition newer_wins (n o : counts) : bool :=
  (total n >? total o) || (unique n >? unique o).

(** The body of the loop, for one [key] of [new_data]. *)
Definition merge_key (new_data old_data : series) (key : index_key) : series :=
  match dget key new_data with
  | None => old_data (* new_data[key] cannot fail: key ranges over new_data *)
  | Some n =>
      if negb (dcontains key old_data) then dset key n old_data
      else
        match dget key old_data with
        | None => old_data
        | Some o => if newer_wins n o then dset key n old_data else old_data
        end
  end.

Definition _merge_dict (old_data new_data : series) : series :=
  fold_left (merge_key new_data) (keys new_data) old_data.

(** What one key looks like after the merge, from its old and new rows. *)
Definition merged_row (o n : option counts) : option counts :=
  match n with
  | None => o
  | Some n' =>
      match o with
      | None => Some n'
      | Some o' => Some (if newer_wins n' o' then n' else o')
      end
  end.

(** ** Aggregation: [_get_counts] (lines 106-130) *)

(** [pd.to_datetime(s, utc=True).date()] on an instant, and
    [pd.Timestamp.now(tz='UTC').floor('D')] on the clock: the UTC day. *)
Definition to_date (ts : Z) : Z := ts / 86400.

(** Lines 111-115, for one [item]. *)
Definition count_item (counts0 : series) (item : MetricEvent) : series :=
  let date := DateKey (to_date (timestamp item)) in
  let counts1 :=
    if negb (dcontains date counts0) then dset date zero_counts counts0
    else counts0 in
  match dget date counts1 with
  | None => counts1 (* counts[date] cannot fail after line 113 *)
  | Some c =>
      dset date (mk_counts (total c + count item) (unique c + uniques item))
        counts1
  end.

(** [pd.date_range(start, end, freq='D')], as day numbers. *)
Definition date_range (start_date end_date : Z) : list Z :=
  map (fun i => start_date + Z.of_nat i)
      (seq 0 (Z.to_nat (end_date - start_date + 1))).

(** Lines 124-128, for one [date] of the range. *)
Definition fill_missing (counts0 : series) (date : Z) : series :=
  if negb (dcontains (DateKey date) counts0)
  then dset (DateKey date) zero_counts counts0
  else counts0.

(** [data] is the list [data[metric_type]] of the fetched JSON; [now] is the
    clock read at line 118, in seconds since the epoch. *)
Definition _get_counts (data : list MetricEvent) (now : Z) : series :=
  let counts0 := fold_left count_item data [] in
  let end_date := to_date now in
  let start_date := end_date - 13 in
  fold_left fill_missing (date_range start_date end_date) counts0.

(** ** Data frames *)

Inductive tzinfo : Type := UTC.

(** A frame with a DatetimeIndex: the time zone of the index ([None] when it
    is timezone-naive), its name, and the rows in order, each labelled by the
    day number of its (midnight) timestamp. *)
Record DataFrame : Type := mk_frame {
  index_tz : option tzinfo;
  index_name : option string;
  rows : list (Z * counts)
}.

Definition index (df : DataFrame) : list Z := map fst (rows df).

(** [pd.DataFrame.from_dict(data, orient="index", columns=[...])]: one row per
    key in dictionary order, labelled by the key object itself. *)
Definition from_dict (data : series) : list (index_key * counts) := data.

(** [df.index = pd.to_datetime(df.index, utc=...)]: dates and timestamps of
    one day become the same label. *)
Definition to_datetime (utc : bool) (df : list (index_key * counts)) : DataFrame :=
  mk_frame (if utc then Some UTC else None) None
           (map (fun r => (key_day (fst r), snd r)) df).

Fixpoint insert_row (r : Z * counts) (l : list (Z * counts)) : list (Z * counts) :=
  match l with
  | [] => [r]
  | x :: t => if fst r <=? fst x then r :: l else x :: insert_row r t
  end.

(** [df.sort_index()] *)
Definition sort_index (df : DataFrame) : DataFrame :=
  mk_frame (index_tz df) (index_name df) (fold_right insert_row [] (rows df)).

(** [idx.searchsorted(x, side="right")] on a sorted index: the number of
    labels not after [x]. *)
Definition searchsorted_right (x : Z) (idx : list Z) : nat :=
  List.length (filter (fun d => d <=? x) idx).

(** [df.last(offset)] with an offset of [offset] days: empty frames are
    returned as they are, otherwise the rows from position
    [searchsorted(index[-1] - offset, side="right")] on. *)
Definition last_offset (offset : Z) (df : DataFrame) : DataFrame :=
  match rows df with
  | [] => df
  | _ =>
      let start_date := List.last (index df) 0 - offset in
      let start := searchsorted_right start_date (index df) in
      mk_frame (index_tz df) (index_name df) (skipn start (rows df))
  end.

(** Lines 43-51; the frame is also written to the snapshot folder. *)
Definition _create_snapshot_dataframe (data : series) : DataFrame :=
  let df := to_datetime false (from_dict data) in
  last_offset 14 (sort_index df).

(** One row entering the groups of [groupby(...).sum()]; the groups are kept
    in ascending label order. *)
Fixpoint group_add (d : Z) (c : counts) (groups : list (Z * counts)) : list (Z * counts) :=
  match groups with
  | [] => [(d, c)]
  | (d', c') :: r =>
      if d <? d' then (d, c) :: groups
      else if d =? d' then (d', add_counts c' c) :: r
      else (d', c') :: group_add d c r
  end.

(** [df.groupby(df.index).sum()] *)
Definition groupby_sum (df : DataFrame) : DataFrame :=
  mk_frame (index_tz df) (index_name df)
           (fold_left (fun g r => group_add (fst r) (snd r) g) (rows df) []).

(** [df.index.min()], [df.index.max()]; [None] is NaT. *)
Definition index_min (df : DataFrame) : option Z :=
  match index df with
  | [] => None
  | d :: t => Some (fold_left Z.min t d)
  end.

Definition index_max (df : DataFrame) : option Z :=
  match index df with
  | [] => None
  | d :: t => Some (fold_left Z.max t d)
  end.

Fixpoint lookup (d : Z) (l : list (Z * counts)) : option counts :=
  match l with
  | [] => None
  | (d', c) :: r => if d =? d' then Some c else lookup d r
  end.

(** [Index.is_unique] *)
Fixpoint is_unique (l : list Z) : bool :=
  match l with
  | [] => true
  | d :: t => negb (existsb (Z.eqb d) t) && is_unique t
  end.

(** [df.reindex(new_index, fill_value=...)]; [None] is the ValueError raised
    on an index with duplicate labels. *)
Definition reindex (new_index : list Z) (fill_value : counts) (df : DataFrame) : option DataFrame :=
  if is_unique (index df)
  then Some (mk_frame (index_tz df) None
               (map (fun d => (d, match lookup d (rows df) with
                                  | Some c => c
                                  | None => fill_value
                                  end)) new_index))
  else None.

(** [df.index = df.index.tz_convert(None)]; [None] is the TypeError raised on
    a timezone-naive index. *)
Definition tz_convert_none (df : DataFrame) : option DataFrame :=
  match index_tz df with
  | Some _ => Some (mk_frame None (index_name df) (rows df))
  | None => None
  end.

Definition set_index_name (name : string) (df : DataFrame) : DataFrame :=
  mk_frame (index_tz df) (Some name) (rows df).

(** ** Cumulative table: [_create_cumulative_dataframe] (lines 132-163) *)

(** [.to_dict(orient="index")] on the frame read from the persisted file:
    timestamp keys; [None] is the ValueError raised on a non-unique index. *)
Definition to_dict_index (file_rows : list (Z * counts)) : option series :=
  if is_unique (map fst file_rows)
  then Some (map (fun r => (StampKey (fst r), snd r)) file_rows)
  else None.

(** Lines 147-163; [None] is an exception leaving the function (the frame is
    empty and [pd.date_range] is called on NaT). *)
Definition normalize_cumulative (dataframe : list (index_key * counts)) : option DataFrame :=
  let df := to_datetime true dataframe in
  let df := groupby_sum df in
  match index_min df, index_max df with
  | Some lo, Some hi =>
      match reindex (date_range lo hi) zero_counts df with
      | Some df =>
          match tz_convert_none df with
          | Some df => Some (set_index_name "_date" df)
          | None => None
          end
      | None => None
      end
  | _, _ => None
  end.

(** [file] is the outcome of [pd.read_csv(file_path, index_col="_date",
    parse_dates=["_date"])]: the persisted rows, or [None] when it raises.
    Any exception of the [try] block selects the [except] branch. *)
Definition _create_cumulative_dataframe (data : series) (file : option (list (Z * counts))) : option DataFrame :=
  let dataframe :=
    match match file with Some f => to_dict_index f | None => None end with
    | Some old_data => from_dict (_merge_dict old_data data)
    | None => from_dict data
    end in
  normalize_cumulative dataframe.

(** Lines 29-34 ([get_clones], lines 36-41, is the same function on the
    clones endpoint): [views] is the fetched list. *)
Definition get_views (views : list MetricEvent) (now : Z) (views_path : option (list (Z * counts))) : DataFrame * option DataFrame :=
  let view_counts := _get_counts views now in
  let snapshot_df := _create_snapshot_dataframe view_counts in
  let cumulative_df := _create_cumulative_dataframe view_counts views_path in
  (snapshot_df, cumulative_df).

Definition get_clones (clones : list MetricEvent) (now : Z) (clones_path : option (list (Z * counts))) : DataFrame * option DataFrame :=
  let clone_counts := _get_counts clones now in
  let snapshot_df := _create_snapshot_dataframe clone_counts in
  let cumulative_df := _create_cumulative_dataframe clone_counts clones_path in
  (snapshot_df, cumulative_df).

(** Modelled from the spec: the caller's write of the returned cumulative
    frame to the cumulative file (the caller is not part of repostats.py).
    The spec persists the result indexed by date, ascending, as plain
    timezone-naive calendar dates; the next run reads these rows back. *)
Definition persisted (df : DataFrame) : option (list (Z * counts)) :=
  Some (rows df).

(** ** Ranked tables: [_create_referral_dataframe] (lines 76-99) *)

Inductive metric_type : Type := referral_sources | referral_paths.

Record source_row : Type :=
  mk_source { referrer : string; source_count : Z; source_uniques : Z }.

Record path_row : Type :=
  mk_path { path : string; title : string; path_count : Z; path_uniques : Z }.

(** The columns selected at lines 77-80. *)
Definition ranked_row (m : metric_type) : Type :=
  match m with
  | referral_sources => source_row
  | referral_paths => path_row
  end.

(** The [subset] column of lines 89-92. *)
Definition key_of (m : metric_type) : ranked_row m -> string :=
  match m with
  | referral_sources => referrer
  | referral_paths => path
  end.

(** The "count" column. *)
Definition count_of (m : metric_type) : ranked_row m -> Z :=
  match m with
  | referral_sources => source_count
  | referral_paths => path_count
  end.

Section Table.
Context {row : Type}.
Variable subset : row -> string.
Variable by_column : row -> Z.

(** [df.drop_duplicates(subset=[...], keep="last")]: a row stays when no
    later row has its key; the order of the rows that stay is kept. *)
Fixpoint drop_duplicates_last (l : list row) : list row :=
  match l with
  | [] => []
  | r :: t =>
      if existsb (fun r' => String.eqb (subset r') (subset r)) t
      then drop_duplicates_last t
      else r :: drop_duplicates_last t
  end.

Fixpoint insert_desc (r : row) (l : list row) : list row :=
  match l with
  | [] => [r]
  | x :: t => if by_column x <=? by_column r then r :: l else x :: insert_desc r t
  end.

(** [df.sort_values(by, ascending=False)].  Rows with equal sort keys are
    left in their incoming order here; pandas does not fix their order, and
    no statement below depends on it. *)
Definition sort_values_desc (l : list row) : list row :=
  fold_right insert_desc [] l.

(** The last row of [l] whose key is [k]. *)
Fixpoint last_with_key (k : string) (l : list row) : option row :=
  match l with
  | [] => None
  | r :: t =>
      match last_with_key k t with
      | Some r' => Some r'
      | None => if String.eqb (subset r) k then Some r else None
      end
  end.

Definition rows_with_key (k : string) (l : list row) : list row :=
  filter (fun r => String.eqb (subset r) k) l.

End Table.

(** [data] is the fetched list; [file] is the outcome of lines 86-87, or
    [None] when reading raises.  As the comments of those lines say, the
    first column of the persisted file is a positional row index; it is
    dropped, and the rows are left.  The returned frame is also written to
    [file_path]. *)
Definition _create_referral_dataframe (m : metric_type) (data : list (ranked_row m)) (file : option (list (ranked_row m))) : list (ranked_row m) :=
  let dataframe := data in
  match file with
  | Some old_data =>
      let combined := drop_duplicates_last (key_of m) (old_data ++ dataframe) in
      sort_values_desc (count_of m) combined
  | None => dataframe
  end.

(** ** Quantities the statements below are phrased with *)

Fixpoint sum_counts (l : list counts) : counts :=
  match l with
  | [] => zero_counts
  | c :: t => add_counts c (sum_counts t)
  end.

Definition event_counts (e : MetricEvent) : counts :=
  mk_counts (count e) (uniques e).

Definition has_event (d : Z) (data : list MetricEvent) : bool :=
  existsb (fun e => to_date (timestamp e) =? d) data.

(** The events of one UTC day, summed. *)
Definition day_events (d : Z) (data : list MetricEvent) : counts :=
  sum_counts (map event_counts
                  (filter (fun e => to_date (timestamp e) =? d) data)).

(** The rows of a datetime-indexed frame labelled [d], summed. *)
Definition label_sum (d : Z) (l : list (Z * counts)) : counts :=
  sum_counts (map snd (filter (fun r => fst r =? d) l)).

(** The rows of a frame whose key denotes day [d], summed. *)
Definition day_sum (d : Z) (dataframe : list (index_key * counts)) : counts :=
  sum_counts (map snd (filter (fun r => key_day (fst r) =? d) dataframe)).

Definition days_of (dataframe : list (index_key * counts)) : list Z :=
  map (fun r => key_day (fst r)) dataframe.

Definition or_zero (o : option counts) : counts :=
  match o with Some c => c | None => zero_counts end.

(** ** Example inputs *)


Definition ex_old_frame : series :=
  [(StampKey 19723, mk_counts 5 8); (StampKey 19724, mk_counts 1 1)].
Definition ex_new_frame : series := [(StampKey 19724, mk_counts 3 0)].

Definition ex_events : list MetricEvent :=
  [mk_event (19723 * 86400) 10 8; mk_event (19724 * 86400) 5 3].
Definition ex_now : Z := 19724 * 86400 + 3600.


(** One event dated 15 days before the day of [ex_now]. *)
Definition ex_old_event : list MetricEvent := [mk_event (19709 * 86400) 1 1].



(** ** Ranked entry points (lines 53-74) *)

(** Lines 53-62: the fetched list with the columns of its metric type; the
    frame is also written to the snapshot folder. *)
Definition _create_referral_snapshot (m : metric_type) (data : list (ranked_row m)) : list (ranked_row m) :=
  data.

(** Lines 64-68; [sources] is the fetched list. *)
Definition get_top_referral_sources (sources : list source_row) (referral_sources_path : option (list source_row)) : list source_row * list source_row :=
  let snapshot_df := _create_referral_snapshot referral_sources sources in
  let cumulative_df :=
    _create_referral_dataframe referral_sources sources referral_sources_path in
  (snapshot_df, cumulative_df).

(** Lines 70-74; [paths] is the fetched list. *)
Definition get_top_referral_paths (paths : list path_row) (referral_paths_path : option (list path_row)) : list path_row * list path_row :=
  let snapshot_df := _create_referral_snapshot referral_paths paths in
  let cumulative_df :=
    _create_referral_dataframe referral_paths paths referral_paths_path in
  (snapshot_df, cumulative_df).

(** ** Further quantities and example inputs *)

(** Day [d] lies in the 14 days ending on the day of [now]. *)
Definition in_window (now d : Z) : bool :=
  (to_date now - 13 <=? d) && (d <=? to_date now).

Definition ex_events_swapped : list MetricEvent :=
  [mk_event (19724 * 86400) 5 3; mk_event (19723 * 86400) 10 8].


Definition option_list {A : Type} (o : option A) : list A :=
  match o with Some a => [a] | None => [] end.

(** ** Facts about dictionaries *)

Section DictFacts.
Context {K V : Type}.
Variable K_eq_dec : forall a b : K, {a = b} + {a <> b}.
#[local] Abbreviation get := (get K_eq_dec).
#[local] Abbreviation set := (set K_eq_dec).
#[local] Abbreviation contains := (contains K_eq_dec).

Lemma get_set_same (k : K) (v : V) (d : dict) : get k (set k v d) = Some v.
Proof.
  induction d as [|[k' v'] r IH]; simpl.
  - destruct (K_eq_dec k k); congruence.
  - destruct (K_eq_dec k k') as [E|N]; simpl.
    + rewrite E. destruct (K_eq_dec k' k'); congruence.
    + destruct (K_eq_dec k k'); [contradiction|exact IH].
Qed.

Lemma get_set_other (k k0 : K) (v : V) (d : dict) :
  k0 <> k -> get k0 (set k v d) = get k0 d.
Proof.
  intros N. induction d as [|[k' v'] r IH]; simpl.
  - destruct (K_eq_dec k0 k); [contradiction|reflexivity].
  - destruct (K_eq_dec k k') as [E|N']; simpl.
    + subst k'. destruct (K_eq_dec k0 k); [contradiction|reflexivity].
    + destruct (K_eq_dec k0 k'); [reflexivity|exact IH].
Qed.

Lemma get_set (k k0 : K) (v : V) (d : dict) :
  get k0 (set k v d) = if K_eq_dec k0 k then Some v else get k0 d.
Proof.
  destruct (K_eq_dec k0 k) as [E|N].
  - subst. apply get_set_same.
  - apply get_set_other; assumption.
Qed.

Lemma get_none_not_in (k : K) (d : @dict K V) :
  get k d = None <-> ~ In k (keys d).
Proof.
  induction d as [|[k' v'] r IH]; simpl.
  - tauto.
  - destruct (K_eq_dec k k') as [E|N].
    + split; [discriminate|]. intros H. exfalso. apply H. left. congruence.
    + rewrite IH. split; intros H; [intros [E|I]; [congruence|tauto]|tauto].
Qed.

Lemma get_some_in (k : K) (v : V) (d : dict) :
  get k d = Some v -> In k (keys d).
Proof.
  intros H. destruct (in_dec K_eq_dec k (keys d)) as [I|N]; [exact I|].
  apply get_none_not_in in N. congruence.
Qed.

Lemma in_keys_get (k : K) (d : @dict K V) :
  In k (keys d) -> exists v, get k d = Some v.
Proof.
  intros I. destruct (get k d) as [v|] eqn:E; [eauto|].
  apply get_none_not_in in E. contradiction.
Qed.

Lemma contains_true (k : K) (d : @dict K V) :
  contains k d = true <-> In k (keys d).
Proof.
  unfold PyDict.contains. destruct (get k d) as [v|] eqn:E.
  - split; [intros _; eapply get_some_in; eassumption|reflexivity].
  - split; [discriminate|]. intros I. apply get_none_not_in in E. contradiction.
Qed.

Lemma keys_set_present (k : K) (v : V) (d : dict) :
  In k (keys d) -> keys (set k v d) = keys d.
Proof.
  induction d as [|[k' v'] r IH]; simpl; [tauto|].
  intros [E|I]; destruct (K_eq_dec k k') as [E'|N]; simpl; try congruence.
  f_equal. apply IH. exact I.
Qed.

Lemma set_absent (k : K) (v : V) (d : dict) :
  ~ In k (keys d) -> set k v d = d ++ [(k, v)].
Proof.
  induction d as [|[k' v'] r IH]; simpl; [reflexivity|].
  intros N. destruct (K_eq_dec k k') as [E|N'].
  - exfalso. apply N. left. congruence.
  - f_equal. apply IH. tauto.
Qed.

End DictFacts.

(** ** Facts about [_merge_dict] *)

Lemma merged_row_idem (o n : option counts) :
  merged_row (merged_row o n) n = merged_row o n.
Proof.
  destruct n as [n|], o as [o|]; simpl; try reflexivity.
  - destruct (newer_wins n o) eqn:E; [|rewrite E; reflexivity].
    unfold newer_wins. rewrite !Z.gtb_ltb, !Z.ltb_irrefl. reflexivity.
  - unfold newer_wins. rewrite !Z.gtb_ltb, !Z.ltb_irrefl. reflexivity.
Qed.

Lemma get_merge_key (new_data old_data : series) (key k : index_key) :
  dget k (merge_key new_data old_data key) =
  if index_key_eq_dec k key
  then merged_row (dget key old_data) (dget key new_data)
  else dget k old_data.
Proof.
  unfold merge_key, dcontains, PyDict.contains, dget, dset.
  destruct (get index_key_eq_dec key new_data) as [n|] eqn:En;
    destruct (get index_key_eq_dec key old_data) as [o|] eqn:Eo; simpl;
    try destruct (newer_wins n o) eqn:Ew; simpl;
    rewrite ?get_set; destruct (index_key_eq_dec k key) as [E|N];
    subst; rewrite ?Eo; reflexivity.
Qed.

Lemma get_fold_merge_key (new_data : series) (ks : list index_key) :
  forall (old_data : series) (k : index_key),
    dget k (fold_left (merge_key new_data) ks old_data) =
    if in_dec index_key_eq_dec k ks
    then merged_row (dget k old_data) (dget k new_data)
    else dget k old_data.
Proof.
  induction ks as [|a ks IH]; intros old_data k; simpl; [reflexivity|].
  rewrite IH, !get_merge_key.
  destruct (index_key_eq_dec a k) as [E|N].
  - subst a. destruct (index_key_eq_dec k k); [|congruence].
    destruct (in_dec index_key_eq_dec k ks); [apply merged_row_idem|reflexivity].
  - destruct (index_key_eq_dec k a); [congruence|].
    destruct (in_dec index_key_eq_dec k ks); reflexivity.
Qed.

(** The merge, key by key. *)
Lemma get_merge_dict (old_data new_data : series) (k : index_key) :
  dget k (_merge_dict old_data new_data) =
  merged_row (dget k old_data) (dget k new_data).
Proof.
  unfold _merge_dict. rewrite get_fold_merge_key.
  destruct (in_dec index_key_eq_dec k (keys new_data)) as [I|N]; [reflexivity|].
  apply (get_none_not_in index_key_eq_dec) in N. unfold dget. rewrite N.
  destruct (get index_key_eq_dec k old_data); reflexivity.
Qed.






(** C9: a key of the old table that the new table does not have keeps its
    row, with both fields unchanged. *)
Theorem merge_dict_frame (old_data new_data : series) (k : index_key) (o : counts) :
  dget k old_data = Some o ->
  ~ In k (keys new_data) ->
  dget k (_merge_dict old_data new_data) = Some o.
Proof.
  intros Ho Hn. apply (get_none_not_in index_key_eq_dec) in Hn.
  rewrite get_merge_dict, Ho. unfold dget. rewrite Hn. reflexivity.
Qed.

Lemma merge_dict_frame_witness :
  dget (StampKey 19723) ex_old_frame = Some (mk_counts 5 8) /\
  ~ In (StampKey 19723) (keys ex_new_frame) /\
  dget (StampKey 19723) (_merge_dict ex_old_frame ex_new_frame)
  = Some (mk_counts 5 8).
Proof.
  assert (N : ~ In (StampKey 19723) (keys ex_new_frame)).
  { simpl. intros [H|[]]. discriminate H. }
  split; [reflexivity|]. split; [exact N|].
  exact (merge_dict_frame ex_old_frame ex_new_frame (StampKey 19723)
           (mk_counts 5 8) eq_refl N).
Defined.

(** ** More on dictionaries: key lists *)

Section DictKeys.
Context {K V : Type}.
Variable K_eq_dec : forall a b : K, {a = b} + {a <> b}.
#[local] Abbreviation get := (get K_eq_dec).
#[local] Abbreviation set := (set K_eq_dec).

Lemma in_keys_set (k k0 : K) (v : V) (d : dict) :
  In k0 (keys (set k v d)) <-> k0 = k \/ In k0 (keys d).
Proof.
  destruct (in_dec K_eq_dec k (keys d)) as [I|N].
  - rewrite (keys_set_present K_eq_dec) by exact I.
    split; [tauto|]. intros [E|H]; [subst; exact I|exact H].
  - rewrite (set_absent K_eq_dec) by exact N.
    unfold keys. rewrite map_app, in_app_iff. simpl.
    split; [intros [H|[H|[]]]; auto|intros [H|H]; auto].
Qed.

Lemma nodup_keys_set (k : K) (v : V) (d : dict) :
  NoDup (keys d) -> NoDup (keys (set k v d)).
Proof.
  intros H. destruct (in_dec K_eq_dec k (keys d)) as [I|N].
  - rewrite (keys_set_present K_eq_dec) by exact I. exact H.
  - rewrite (set_absent K_eq_dec) by exact N.
    unfold keys. rewrite map_app. simpl. apply NoDup_app.
    + exact H.
    + constructor; [simpl; tauto|constructor].
    + intros a Ia [E|[]]. subst a. apply N. exact Ia.
Qed.

Lemma in_nodup_get (k : K) (v : V) (d : dict) :
  NoDup (keys d) -> In (k, v) d -> get k d = Some v.
Proof.
  induction d as [|[k' v'] r IH]; simpl; [tauto|].
  intros ND [E|I].
  - inversion E; subst. destruct (K_eq_dec k k); congruence.
  - inversion ND as [|? ? Nk ND']; subst.
    destruct (K_eq_dec k k') as [E|N].
    + subst k'. exfalso. apply Nk. apply (in_map fst) in I. exact I.
    + apply IH; assumption.
Qed.

Lemma get_in (k : K) (v : V) (d : dict) : get k d = Some v -> In (k, v) d.
Proof.
  induction d as [|[k' v'] r IH]; simpl; [discriminate|].
  destruct (K_eq_dec k k') as [E|N].
  - intros H. inversion H; subst. left. reflexivity.
  - intros H. right. apply IH. exact H.
Qed.

End DictKeys.

(** ** Facts about [date_range] *)

Lemma date_range_nil (a b : Z) : b < a -> date_range a b = [].
Proof.
  intros H. unfold date_range.
  replace (Z.to_nat (b - a + 1)) with 0%nat by lia. reflexivity.
Qed.

Lemma date_range_cons (a b : Z) :
  a <= b -> date_range a b = a :: date_range (a + 1) b.
Proof.
  intros H. unfold date_range.
  replace (Z.to_nat (b - a + 1)) with (S (Z.to_nat (b - (a + 1) + 1))) by lia.
  simpl. f_equal; [lia|].
  rewrite <- seq_shift, map_map. apply map_ext. intros i. lia.
Qed.

Lemma in_date_range (a b d : Z) : In d (date_range a b) <-> a <= d <= b.
Proof.
  unfold date_range. rewrite in_map_iff. split.
  - intros [i [E I]]. apply in_seq in I. lia.
  - intros H. exists (Z.to_nat (d - a)). split; [lia|]. apply in_seq. lia.
Qed.

Lemma length_date_range (a b : Z) :
  List.length (date_range a b) = Z.to_nat (b - a + 1).
Proof. unfold date_range. rewrite length_map, length_seq. reflexivity. Qed.

Lemma date_range_ind (P : Z -> Z -> list Z -> Prop) :
  (forall a b, b < a -> P a b []) ->
  (forall a b, a <= b -> P (a + 1) b (date_range (a + 1) b) ->
               P a b (a :: date_range (a + 1) b)) ->
  forall a b, P a b (date_range a b).
Proof.
  intros Hnil Hcons a b.
  remember (Z.to_nat (b - a + 1)) as n eqn:En.
  revert a En. induction n as [|n IH]; intros a En.
  - rewrite date_range_nil by lia. apply Hnil. lia.
  - rewrite date_range_cons by lia. apply Hcons; [lia|]. apply IH. lia.
Qed.

Lemma date_range_sorted (a b : Z) : StronglySorted Z.lt (date_range a b).
Proof.
  apply (date_range_ind (fun _ _ l => StronglySorted Z.lt l)).
  - intros; constructor.
  - intros a0 b0 H IH. constructor; [exact IH|].
    apply Forall_forall. intros d I. apply in_date_range in I. lia.
Qed.

Lemma last_date_range (a b : Z) : a <= b -> List.last (date_range a b) 0 = b.
Proof.
  intros H. unfold date_range.
  replace (Z.to_nat (b - a + 1)) with (Z.to_nat (b - a) + 1)%nat by lia.
  rewrite seq_app, map_app. simpl. rewrite last_last. lia.
Qed.

(** ** Facts about [_get_counts] *)

Lemma add_counts_zero_l (c : counts) : add_counts zero_counts c = c.
Proof. destruct c. reflexivity. Qed.

Lemma add_counts_zero_r (c : counts) : add_counts c zero_counts = c.
Proof. destruct c. unfold add_counts. simpl. f_equal; lia. Qed.

Lemma add_counts_assoc (a b c : counts) :
  add_counts (add_counts a b) c = add_counts a (add_counts b c).
Proof. unfold add_counts. simpl. f_equal; lia. Qed.

Lemma add_counts_comm (a b : counts) : add_counts a b = add_counts b a.
Proof. unfold add_counts. f_equal; lia. Qed.

Lemma get_count_item (acc : series) (item : MetricEvent) (k : index_key) :
  dget k (count_item acc item) =
  if index_key_eq_dec k (DateKey (to_date (timestamp item)))
  then Some (add_counts (or_zero (dget k acc)) (event_counts item))
  else dget k acc.
Proof.
  unfold count_item, dcontains, PyDict.contains, dget, dset.
  set (date := DateKey (to_date (timestamp item))).
  destruct (get index_key_eq_dec date acc) as [c|] eqn:Ea; simpl.
  - rewrite Ea, get_set.
    destruct (index_key_eq_dec k date) as [E|N]; [|reflexivity].
    subst k. rewrite Ea. reflexivity.
  - rewrite get_set_same, !get_set.
    destruct (index_key_eq_dec k date) as [E|N]; [|reflexivity].
    subst k. rewrite Ea. reflexivity.
Qed.

Lemma keys_count_item (acc : series) (item : MetricEvent) (k : index_key) :
  In k (keys (count_item acc item)) <->
  k = DateKey (to_date (timestamp item)) \/ In k (keys acc).
Proof.
  rewrite <- !(contains_true index_key_eq_dec).
  unfold PyDict.contains. fold (dget k (count_item acc item)) (dget k acc).
  rewrite get_count_item.
  destruct (index_key_eq_dec k (DateKey (to_date (timestamp item)))) as [E|N].
  - split; auto.
  - split; [auto|]. intros [E|H]; [contradiction|exact H].
Qed.

Lemma nodup_count_item (acc : series) (item : MetricEvent) :
  NoDup (keys acc) -> NoDup (keys (count_item acc item)).
Proof.
  intros H. unfold count_item. cbv zeta.
  set (date := DateKey (to_date (timestamp item))).
  destruct (negb (dcontains date acc)).
  - destruct (dget date (dset date zero_counts acc));
      repeat apply nodup_keys_set; exact H.
  - destruct (dget date acc); [apply nodup_keys_set|]; exact H.
Qed.

Lemma day_events_cons (e : MetricEvent) (data : list MetricEvent) (d : Z) :
  day_events d (e :: data) =
  if to_date (timestamp e) =? d
  then add_counts (event_counts e) (day_events d data)
  else day_events d data.
Proof.
  unfold day_events. simpl. destruct (to_date (timestamp e) =? d); reflexivity.
Qed.

Lemma day_events_no_event (d : Z) (data : list MetricEvent) :
  has_event d data = false -> day_events d data = zero_counts.
Proof.
  induction data as [|e data IH]; [reflexivity|].
  unfold has_event. simpl. rewrite day_events_cons.
  destruct (to_date (timestamp e) =? d); [discriminate|exact IH].
Qed.

Lemma has_event_true (d : Z) (data : list MetricEvent) :
  has_event d data = true <->
  exists e, In e data /\ to_date (timestamp e) = d.
Proof.
  unfold has_event. rewrite existsb_exists.
  split; intros [e [I E]]; exists e; (split; [exact I|]);
    apply Z.eqb_eq; exact E.
Qed.

Lemma get_fold_count_item (data : list MetricEvent) :
  forall (acc : series) (d : Z),
    dget (DateKey d) (fold_left count_item data acc) =
    match dget (DateKey d) acc with
    | Some c => Some (add_counts c (day_events d data))
    | None => if has_event d data then Some (day_events d data) else None
    end.
Proof.
  induction data as [|e data IH]; intros acc d.
  - simpl. destruct (dget (DateKey d) acc); [|reflexivity].
    unfold day_events. simpl. rewrite add_counts_zero_r. reflexivity.
  - simpl fold_left. rewrite IH, get_count_item, day_events_cons.
    unfold has_event. simpl existsb.
    destruct (index_key_eq_dec (DateKey d) (DateKey (to_date (timestamp e))))
      as [E|N].
    + inversion E as [E']. rewrite <- E', Z.eqb_refl.
      destruct (dget (DateKey d) acc) as [c|]; simpl.
      * rewrite add_counts_assoc. reflexivity.
      * rewrite add_counts_zero_l. reflexivity.
    + assert (Hd : (to_date (timestamp e) =? d) = false).
      { apply Z.eqb_neq. intros H. apply N. rewrite H. reflexivity. }
      rewrite Hd. reflexivity.
Qed.

Lemma keys_fold_count_item (data : list MetricEvent) :
  forall (acc : series) (k : index_key),
    In k (keys (fold_left count_item data acc)) <->
    In k (keys acc) \/
    exists e, In e data /\ k = DateKey (to_date (timestamp e)).
Proof.
  induction data as [|e data IH]; intros acc k; simpl.
  - split; [auto|]. intros [H|[e [[] _]]]. exact H.
  - rewrite IH, keys_count_item. split.
    + intros [[E|H]|[e' [I E]]]; eauto.
    + intros [H|[e' [[E'|I] E]]]; subst; eauto.
Qed.

Lemma nodup_fold_count_item (data : list MetricEvent) :
  forall acc : series,
    NoDup (keys acc) -> NoDup (keys (fold_left count_item data acc)).
Proof.
  induction data as [|e data IH]; intros acc H; simpl; [exact H|].
  apply IH, nodup_count_item, H.
Qed.

Lemma get_fill_missing (acc : series) (date : Z) (k : index_key) :
  dget k (fill_missing acc date) =
  if index_key_eq_dec k (DateKey date)
  then Some (or_zero (dget k acc))
  else dget k acc.
Proof.
  unfold fill_missing, dcontains, PyDict.contains, dget, dset.
  destruct (get index_key_eq_dec (DateKey date) acc) as [c|] eqn:Ea; simpl.
  - destruct (index_key_eq_dec k (DateKey date)) as [E|N]; [|reflexivity].
    subst k. rewrite Ea. reflexivity.
  - rewrite get_set.
    destruct (index_key_eq_dec k (DateKey date)) as [E|N]; [|reflexivity].
    subst k. rewrite Ea. reflexivity.
Qed.

Lemma keys_fill_missing (acc : series) (date : Z) (k : index_key) :
  In k (keys (fill_missing acc date)) <-> k = DateKey date \/ In k (keys acc).
Proof.
  rewrite <- !(contains_true index_key_eq_dec).
  unfold PyDict.contains. fold (dget k (fill_missing acc date)) (dget k acc).
  rewrite get_fill_missing.
  destruct (index_key_eq_dec k (DateKey date)) as [E|N].
  - split; auto.
  - split; [auto|]. intros [E|H]; [contradiction|exact H].
Qed.

Lemma nodup_fill_missing (acc : series) (date : Z) :
  NoDup (keys acc) -> NoDup (keys (fill_missing acc date)).
Proof.
  intros H. unfold fill_missing.
  destruct (negb (dcontains (DateKey date) acc));
    [apply nodup_keys_set|]; exact H.
Qed.

Lemma get_fold_fill_present (ds : list Z) :
  forall (acc : series) (k : index_key) (c : counts),
    dget k acc = Some c -> dget k (fold_left fill_missing ds acc) = Some c.
Proof.
  induction ds as [|a ds IH]; intros acc k c H; simpl; [exact H|].
  apply IH. rewrite get_fill_missing, H.
  destruct (index_key_eq_dec k (DateKey a)); reflexivity.
Qed.

Lemma get_fold_fill_absent (ds : list Z) :
  forall (acc : series) (d : Z),
    dget (DateKey d) acc = None -> In d ds ->
    dget (DateKey d) (fold_left fill_missing ds acc) = Some zero_counts.
Proof.
  induction ds as [|a ds IH]; intros acc d H I; simpl; [destruct I|].
  destruct (Z.eq_dec a d) as [E|N].
  - subst a. apply get_fold_fill_present.
    rewrite get_fill_missing, H.
    destruct (index_key_eq_dec (DateKey d) (DateKey d));
      [reflexivity|congruence].
  - apply IH.
    + rewrite get_fill_missing.
      destruct (index_key_eq_dec (DateKey d) (DateKey a)) as [E|_];
        [inversion E; congruence|exact H].
    + destruct I as [E|I]; [contradiction|exact I].
Qed.

Lemma keys_fold_fill (ds : list Z) :
  forall (acc : series) (k : index_key),
    In k (keys (fold_left fill_missing ds acc)) <->
    In k (keys acc) \/ exists d, In d ds /\ k = DateKey d.
Proof.
  induction ds as [|a ds IH]; intros acc k; simpl.
  - split; [auto|]. intros [H|[d [[] _]]]. exact H.
  - rewrite IH, keys_fill_missing. split.
    + intros [[E|H]|[d [I E]]]; eauto.
    + intros [H|[d [[E'|I] E]]]; subst; eauto.
Qed.

Lemma nodup_fold_fill (ds : list Z) :
  forall acc : series,
    NoDup (keys acc) -> NoDup (keys (fold_left fill_missing ds acc)).
Proof.
  induction ds as [|a ds IH]; intros acc H; simpl; [exact H|].
  apply IH, nodup_fill_missing, H.
Qed.

(** The aggregate: every day with an event and every day of the 14-day
    window has one [DateKey] entry, holding the summed events of that day. *)
Lemma get_counts_get (data : list MetricEvent) (now d : Z) :
  has_event d data = true \/ to_date now - 13 <= d <= to_date now ->
  dget (DateKey d) (_get_counts data now) = Some (day_events d data).
Proof.
  intros H. unfold _get_counts. cbv zeta.
  pose proof (get_fold_count_item data [] d) as G. simpl in G.
  destruct (has_event d data) eqn:E.
  - apply get_fold_fill_present. exact G.
  - rewrite (day_events_no_event _ _ E).
    apply get_fold_fill_absent; [exact G|].
    apply in_date_range. destruct H as [H|H]; [discriminate|exact H].
Qed.

Lemma get_counts_keys (data : list MetricEvent) (now : Z) (k : index_key) :
  In k (keys (_get_counts data now)) <->
  exists d, k = DateKey d /\
            (has_event d data = true \/ to_date now - 13 <= d <= to_date now).
Proof.
  unfold _get_counts. cbv zeta.
  rewrite keys_fold_fill, keys_fold_count_item. simpl. split.
  - intros [[[]|[e [I E]]]|[d [I E]]].
    + exists (to_date (timestamp e)). split; [exact E|]. left.
      apply has_event_true. eauto.
    + exists d. split; [exact E|]. right. apply in_date_range. exact I.
  - intros [d [E [H|H]]].
    + apply has_event_true in H. destruct H as [e [I Ed]].
      left. right. exists e. split; [exact I|]. congruence.
    + right. exists d. split; [|exact E]. apply in_date_range. exact H.
Qed.

Lemma get_counts_nodup (data : list MetricEvent) (now : Z) :
  NoDup (keys (_get_counts data now)).
Proof.
  unfold _get_counts. cbv zeta.
  apply nodup_fold_fill, nodup_fold_count_item. constructor.
Qed.

(** ** Sorting by index label *)

Lemma insert_row_perm (r : Z * counts) (l : list (Z * counts)) :
  Permutation (insert_row r l) (r :: l).
Proof.
  induction l as [|x t IH]; simpl; [apply Permutation_refl|].
  destruct (fst r <=? fst x); [apply Permutation_refl|].
  eapply Permutation_trans; [apply perm_skip, IH|apply perm_swap].
Qed.

Lemma sort_rows_perm (l : list (Z * counts)) :
  Permutation (fold_right insert_row [] l) l.
Proof.
  induction l as [|r t IH]; simpl; [constructor|].
  eapply Permutation_trans; [apply insert_row_perm|apply perm_skip, IH].
Qed.

Lemma insert_row_sorted (r : Z * counts) (l : list (Z * counts)) :
  StronglySorted Z.le (map fst l) ->
  StronglySorted Z.le (map fst (insert_row r l)).
Proof.
  induction l as [|x t IH]; simpl; intros H.
  - constructor; constructor.
  - inversion H as [|? ? Ht Hx]; subst.
    destruct (fst r <=? fst x) eqn:E; simpl.
    + apply Z.leb_le in E. constructor; [exact H|].
      constructor; [exact E|].
      eapply Forall_impl; [|exact Hx]. intros a Ha. simpl in Ha. lia.
    + apply Z.leb_gt in E. constructor; [apply IH, Ht|].
      eapply Permutation_Forall.
      * apply Permutation_sym, Permutation_map, insert_row_perm.
      * simpl. constructor; [lia|exact Hx].
Qed.

Lemma sort_rows_sorted (l : list (Z * counts)) :
  StronglySorted Z.le (map fst (fold_right insert_row [] l)).
Proof.
  induction l as [|r t IH]; simpl; [constructor|].
  apply insert_row_sorted, IH.
Qed.

Lemma sorted_le_nodup_lt (l : list Z) :
  StronglySorted Z.le l -> NoDup l -> StronglySorted Z.lt l.
Proof.
  induction l as [|a t IH]; intros S N; [constructor|].
  inversion S as [|? ? St Ha]; inversion N as [|? ? Na Nt]; subst.
  constructor; [apply IH; assumption|].
  rewrite Forall_forall in *. intros x I. specialize (Ha x I).
  assert (x <> a) by (intros E; subst; contradiction). lia.
Qed.

Lemma sorted_lt_nodup (l : list Z) : StronglySorted Z.lt l -> NoDup l.
Proof.
  induction l as [|a t IH]; intros S; [constructor|].
  inversion S as [|? ? St Ha]; subst. constructor; [|apply IH, St].
  intros I. rewrite Forall_forall in Ha. specialize (Ha a I). lia.
Qed.

(** A strictly ascending list is determined by its elements. *)
Lemma sorted_lt_unique (l1 : list Z) :
  forall l2 : list Z,
    StronglySorted Z.lt l1 -> StronglySorted Z.lt l2 ->
    (forall x, In x l1 <-> In x l2) -> l1 = l2.
Proof.
  induction l1 as [|a t1 IH]; intros [|b t2] S1 S2 H.
  - reflexivity.
  - exfalso. apply (H b). left. reflexivity.
  - exfalso. apply (H a). left. reflexivity.
  - inversion S1 as [|? ? St1 Ha]; inversion S2 as [|? ? St2 Hb]; subst.
    rewrite Forall_forall in Ha, Hb.
    assert (E : a = b).
    { destruct (proj1 (H a) (or_introl eq_refl)) as [E|I]; [congruence|].
      destruct (proj2 (H b) (or_introl eq_refl)) as [E|I']; [congruence|].
      specialize (Ha b I'). specialize (Hb a I). lia. }
    subst b. f_equal. apply IH; [exact St1|exact St2|].
    intros x. split; intros I.
    + destruct (proj1 (H x) (or_intror I)) as [E|I']; [|exact I'].
      specialize (Ha x I). lia.
    + destruct (proj2 (H x) (or_intror I)) as [E|I']; [|exact I'].
      specialize (Hb x I). lia.
Qed.

Lemma rows_rebuild (f : Z -> counts) (l : list (Z * counts)) :
  (forall d c, In (d, c) l -> c = f d) ->
  l = map (fun d => (d, f d)) (map fst l).
Proof.
  induction l as [|[d c] t IH]; intros H; simpl; [reflexivity|].
  rewrite <- (H d c) by (left; reflexivity). f_equal.
  apply IH. intros d' c' I. apply H. right. exact I.
Qed.

Lemma filter_le_nil (x : Z) (l : list Z) :
  (forall d, In d l -> x < d) -> filter (fun d => d <=? x) l = [].
Proof.
  induction l as [|a t IH]; intros H; simpl; [reflexivity|].
  assert (Ha : (a <=? x) = false)
    by (apply Z.leb_gt, H; left; reflexivity).
  rewrite Ha. apply IH. intros d I. apply H. right. exact I.
Qed.

(** ** The snapshot *)

Lemma date_keys_inj (data : list MetricEvent) (now : Z) :
  ForallPairs (fun x y => key_day x = key_day y -> x = y)
              (keys (_get_counts data now)).
Proof.
  intros x y Ix Iy E.
  apply get_counts_keys in Ix, Iy.
  destruct Ix as [dx [Ex _]], Iy as [dy [Ey _]]. subst. simpl in E.
  congruence.
Qed.

Lemma in_agg_rows (data : list MetricEvent) (now d : Z) (c : counts) :
  In (d, c) (map (fun r => (key_day (fst r), snd r)) (_get_counts data now)) ->
  dget (DateKey d) (_get_counts data now) = Some c.
Proof.
  intros I. apply in_map_iff in I. destruct I as [[k c'] [E I]].
  simpl in E. inversion E; subst.
  assert (Ik : In k (keys (_get_counts data now)))
    by (apply (in_map fst) in I; exact I).
  apply get_counts_keys in Ik. destruct Ik as [d [Ek _]]. subst k. simpl.
  apply in_nodup_get; [apply get_counts_nodup|exact I].
Qed.

(** The sorted rows of the aggregate when every event falls in the window. *)
Lemma sorted_snapshot_rows (data : list MetricEvent) (now : Z) :
  (forall e, In e data ->
             to_date now - 13 <= to_date (timestamp e) <= to_date now) ->
  rows (sort_index (to_datetime false (from_dict (_get_counts data now)))) =
  map (fun d => (d, day_events d data))
      (date_range (to_date now - 13) (to_date now)).
Proof.
  intros Hw. simpl. unfold from_dict.
  set (agg := _get_counts data now).
  set (rows0 := map (fun r => (key_day (fst r), snd r)) agg).
  set (sorted := fold_right insert_row [] rows0).
  assert (Hfst : map fst rows0 = map key_day (keys agg)).
  { unfold rows0, keys. rewrite !map_map. reflexivity. }
  assert (Hp : Permutation (map fst sorted) (map fst rows0))
    by (apply Permutation_map, sort_rows_perm).
  assert (Hin : forall x, In x (map fst sorted) <->
                          to_date now - 13 <= x <= to_date now).
  { intros x. split.
    - intros I. apply (Permutation_in _ Hp) in I. rewrite Hfst in I.
      apply in_map_iff in I. destruct I as [k [E I]].
      apply get_counts_keys in I. destruct I as [d [Ek [H|H]]];
        subst k; simpl in E; subst d; [|exact H].
      apply has_event_true in H. destruct H as [e [I E]].
      rewrite <- E. apply Hw, I.
    - intros H. apply (Permutation_in _ (Permutation_sym Hp)).
      rewrite Hfst. apply in_map_iff. exists (DateKey x).
      split; [reflexivity|]. apply get_counts_keys. eauto. }
  assert (Hidx : map fst sorted = date_range (to_date now - 13) (to_date now)).
  { apply sorted_lt_unique.
    - apply sorted_le_nodup_lt; [apply sort_rows_sorted|].
      apply (Permutation_NoDup (Permutation_sym Hp)). rewrite Hfst.
      apply NoDup_map_NoDup_ForallPairs;
        [apply date_keys_inj|apply get_counts_nodup].
    - apply date_range_sorted.
    - intros x. rewrite Hin, in_date_range. reflexivity. }
  rewrite <- Hidx. apply rows_rebuild. intros d c I.
  assert (Hd : to_date now - 13 <= d <= to_date now)
    by (apply Hin; apply (in_map fst) in I; exact I).
  apply (Permutation_in _ (sort_rows_perm rows0)) in I.
  apply in_agg_rows in I. rewrite get_counts_get in I by (right; exact Hd).
  congruence.
Qed.

(** C3: when every event is dated within the 14 days ending today (UTC), the
    snapshot has exactly 14 rows, labelled today-13, ..., today in ascending
    order; each row holds the summed count and uniques of the events of its
    date, and (0, 0) when the date has no event. *)
Theorem snapshot_densification (data : list MetricEvent) (now : Z) :
  (forall e, In e data ->
             to_date now - 13 <= to_date (timestamp e) <= to_date now) ->
  let snapshot := _create_snapshot_dataframe (_get_counts data now) in
  rows snapshot =
    map (fun d => (d, day_events d data))
        (date_range (to_date now - 13) (to_date now)) /\
  index snapshot = date_range (to_date now - 13) (to_date now) /\
  List.length (rows snapshot) = 14%nat /\
  (forall d c, In (d, c) (rows snapshot) ->
               (forall e, In e data -> to_date (timestamp e) <> d) ->
               c = zero_counts).
Proof.
  intros Hw snapshot.
  assert (R : rows snapshot =
              map (fun d => (d, day_events d data))
                  (date_range (to_date now - 13) (to_date now))).
  { unfold snapshot, _create_snapshot_dataframe. cbv zeta.
    pose proof (sorted_snapshot_rows data now Hw) as S.
    set (df := sort_index (to_datetime false (from_dict (_get_counts data now))))
      in *.
    unfold last_offset.
    assert (I : index df = date_range (to_date now - 13) (to_date now)).
    { unfold index. rewrite S, map_map. simpl. apply map_id. }
    destruct (rows df) as [|r t] eqn:Er.
    - rewrite date_range_cons in S by lia. discriminate S.
    - simpl rows. rewrite I, last_date_range by lia.
      unfold searchsorted_right. rewrite filter_le_nil.
      + simpl. exact S.
      + intros d Hd. apply in_date_range in Hd. lia. }
  split; [exact R|]. split; [|split].
  - unfold index. rewrite R, map_map. simpl. apply map_id.
  - rewrite R, length_map, length_date_range.
    replace (to_date now - (to_date now - 13) + 1) with 14 by lia. reflexivity.
  - intros d c I Hno. rewrite R in I. apply in_map_iff in I.
    destruct I as [d' [E _]]. inversion E; subst.
    apply day_events_no_event. destruct (has_event d data) eqn:Eh; [|reflexivity].
    apply has_event_true in Eh. destruct Eh as [e [Ie Ee]].
    exfalso. apply (Hno e Ie Ee).
Qed.

Lemma snapshot_densification_witness :
  (forall e, In e ex_events ->
             to_date ex_now - 13 <= to_date (timestamp e) <= to_date ex_now) /\
  List.length (rows (_create_snapshot_dataframe (_get_counts ex_events ex_now)))
  = 14%nat /\
  In (19723, mk_counts 10 8)
     (rows (_create_snapshot_dataframe (_get_counts ex_events ex_now))) /\
  In (19722, zero_counts)
     (rows (_create_snapshot_dataframe (_get_counts ex_events ex_now))).
Proof.
  assert (H : forall e, In e ex_events ->
                        to_date ex_now - 13 <= to_date (timestamp e)
                        <= to_date ex_now).
  { intros e [E|[E|[]]]; subst e; vm_compute; split; discriminate. }
  split; [exact H|].
  pose proof (snapshot_densification ex_events ex_now H) as T.
  cbv zeta in T. destruct T as [R [_ [L _]]].
  split; [exact L|]. rewrite R. vm_compute. tauto.
Defined.

(** ** Grouping and reindexing *)

Lemma lookup_none_iff (d : Z) (l : list (Z * counts)) :
  lookup d l = None <-> ~ In d (map fst l).
Proof.
  induction l as [|[d' c] t IH]; simpl; [tauto|].
  destruct (d =? d') eqn:E.
  - apply Z.eqb_eq in E. split; [discriminate|]. intros H. exfalso. auto.
  - apply Z.eqb_neq in E. rewrite IH. split; intros H.
    + intros [E'|I]; [congruence|tauto].
    + tauto.
Qed.

Lemma in_group_add (d x : Z) (c : counts) (g : list (Z * counts)) :
  In x (map fst (group_add d c g)) <-> x = d \/ In x (map fst g).
Proof.
  induction g as [|[d' c'] r IH]; simpl.
  - split; [intros [E|[]]; auto|intros [E|[]]; auto].
  - destruct (d <? d') eqn:E1; simpl; [split; intros [H|H]; auto|].
    destruct (d =? d') eqn:E2; simpl.
    + apply Z.eqb_eq in E2. subst d'. split; [auto|]. intros [H|H]; auto.
    + rewrite IH. split; [intros [H|[H|H]]; auto|intros [H|[H|H]]; auto].
Qed.

Lemma group_add_sorted (d : Z) (c : counts) (g : list (Z * counts)) :
  StronglySorted Z.lt (map fst g) ->
  StronglySorted Z.lt (map fst (group_add d c g)).
Proof.
  induction g as [|[d' c'] r IH]; simpl; intros H.
  - constructor; constructor.
  - inversion H as [|? ? Hr Hd]; subst.
    destruct (d <? d') eqn:E1; simpl.
    + apply Z.ltb_lt in E1. constructor; [exact H|].
      constructor; [exact E1|].
      eapply Forall_impl; [|exact Hd]. intros a Ha. simpl in Ha. lia.
    + apply Z.ltb_ge in E1. destruct (d =? d') eqn:E2; simpl.
      * exact H.
      * apply Z.eqb_neq in E2. constructor; [apply IH, Hr|].
        apply Forall_forall. intros x I. apply in_group_add in I.
        rewrite Forall_forall in Hd. destruct I as [E|I]; [lia|].
        apply Hd, I.
Qed.

Lemma lookup_group_add (d x : Z) (c : counts) (g : list (Z * counts)) :
  StronglySorted Z.lt (map fst g) ->
  lookup x (group_add d c g) =
  if x =? d
  then Some (match lookup d g with Some c' => add_counts c' c | None => c end)
  else lookup x g.
Proof.
  induction g as [|[d' c'] r IH]; simpl; intros H.
  - reflexivity.
  - inversion H as [|? ? Hr Hd]; subst. rewrite Forall_forall in Hd.
    destruct (d <? d') eqn:E1; simpl.
    + apply Z.ltb_lt in E1.
      assert (E2 : (d =? d') = false) by (apply Z.eqb_neq; lia).
      rewrite E2.
      assert (N : lookup d r = None).
      { apply lookup_none_iff. intros I. specialize (Hd d I). simpl in Hd. lia. }
      rewrite N. reflexivity.
    + apply Z.ltb_ge in E1. destruct (d =? d') eqn:E2; simpl.
      * apply Z.eqb_eq in E2. subst d'.
        destruct (x =? d); reflexivity.
      * apply Z.eqb_neq in E2. rewrite (IH Hr).
        destruct (x =? d) eqn:E3; [|reflexivity].
        apply Z.eqb_eq in E3. subst x.
        assert (E4 : (d =? d') = false) by (apply Z.eqb_neq; exact E2).
        rewrite E4. reflexivity.
Qed.

Lemma label_sum_cons (r : Z * counts) (l : list (Z * counts)) (d : Z) :
  label_sum d (r :: l) =
  if fst r =? d then add_counts (snd r) (label_sum d l) else label_sum d l.
Proof. unfold label_sum. simpl. destruct (fst r =? d); reflexivity. Qed.


Lemma groupby_fold (l : list (Z * counts)) :
  forall g : list (Z * counts),
    StronglySorted Z.lt (map fst g) ->
    let g' := fold_left (fun g r => group_add (fst r) (snd r) g) l g in
    StronglySorted Z.lt (map fst g') /\
    (forall x, In x (map fst g') <-> In x (map fst g) \/ In x (map fst l)) /\
    (forall x, or_zero (lookup x g') =
               add_counts (or_zero (lookup x g)) (label_sum x l)).
Proof.
  induction l as [|r t IH]; intros g S; simpl.
  - split; [exact S|]. split; [intros x; tauto|].
    intros x. unfold label_sum. simpl. rewrite add_counts_zero_r. reflexivity.
  - pose proof (group_add_sorted (fst r) (snd r) g S) as S'.
    destruct (IH _ S') as [S2 [K2 L2]]. split; [exact S2|]. split.
    + intros x. rewrite K2, in_group_add. split.
      * intros [[E|H]|H]; auto.
      * intros [H|[E|H]]; auto.
    + intros x. rewrite L2, lookup_group_add by exact S.
      rewrite label_sum_cons, (Z.eqb_sym (fst r) x).
      destruct (x =? fst r) eqn:E.
      * apply Z.eqb_eq in E. subst x.
        destruct (lookup (fst r) g); simpl.
        -- rewrite add_counts_assoc. reflexivity.
        -- rewrite add_counts_zero_l. reflexivity.
      * reflexivity.
Qed.

Lemma nodup_is_unique (l : list Z) : NoDup l -> is_unique l = true.
Proof.
  induction l as [|a t IH]; intros N; [reflexivity|].
  inversion N as [|? ? Na Nt]; subst. simpl. rewrite (IH Nt), andb_true_r.
  destruct (existsb (Z.eqb a) t) eqn:E; [|reflexivity].
  apply existsb_exists in E. destruct E as [x [I E]].
  apply Z.eqb_eq in E. subst x. contradiction.
Qed.

Lemma fold_min_spec (t : list Z) :
  forall d : Z,
    In (fold_left Z.min t d) (d :: t) /\
    forall x, In x (d :: t) -> fold_left Z.min t d <= x.
Proof.
  induction t as [|a t IH]; intros d; simpl.
  - split; [auto|]. intros x [E|[]]. lia.
  - destruct (IH (Z.min d a)) as [I L]. split.
    + destruct I as [E|I]; [|auto].
      rewrite <- E. destruct (Z.min_spec d a) as [[_ M]|[_ M]]; rewrite M; auto.
    + intros x [E|[E|I']].
      * specialize (L (Z.min d a) (or_introl eq_refl)). lia.
      * specialize (L (Z.min d a) (or_introl eq_refl)). lia.
      * apply L. right. exact I'.
Qed.

Lemma fold_max_spec (t : list Z) :
  forall d : Z,
    In (fold_left Z.max t d) (d :: t) /\
    forall x, In x (d :: t) -> x <= fold_left Z.max t d.
Proof.
  induction t as [|a t IH]; intros d; simpl.
  - split; [auto|]. intros x [E|[]]. lia.
  - destruct (IH (Z.max d a)) as [I L]. split.
    + destruct I as [E|I]; [|auto].
      rewrite <- E. destruct (Z.max_spec d a) as [[_ M]|[_ M]]; rewrite M; auto.
    + intros x [E|[E|I']].
      * specialize (L (Z.max d a) (or_introl eq_refl)). lia.
      * specialize (L (Z.max d a) (or_introl eq_refl)). lia.
      * apply L. right. exact I'.
Qed.

Lemma day_sum_label_sum (utc : bool) (d : Z) (dataframe : list (index_key * counts)) :
  label_sum d (rows (to_datetime utc dataframe)) = day_sum d dataframe.
Proof.
  unfold label_sum, day_sum. simpl.
  induction dataframe as [|r t IH]; simpl; [reflexivity|].
  destruct (key_day (fst r) =? d); simpl; [f_equal|]; exact IH.
Qed.

(** Lines 147-163 on a frame with at least one row: the labels are
    normalised to days, the rows of one day are summed, and every day from
    the earliest to the latest gets one row. *)
Lemma normalize_cumulative_spec (dataframe : list (index_key * counts)) :
  dataframe <> [] ->
  exists lo hi,
    In lo (days_of dataframe) /\ In hi (days_of dataframe) /\
    (forall d, In d (days_of dataframe) -> lo <= d <= hi) /\
    normalize_cumulative dataframe =
    Some (mk_frame None (Some "_date"%string)
            (map (fun d => (d, day_sum d dataframe)) (date_range lo hi))).
Proof.
  intros NE.
  pose (rows1 := map (fun r => (key_day (fst r), snd r)) dataframe).
  assert (D : days_of dataframe = map fst rows1).
  { unfold days_of, rows1. rewrite map_map. reflexivity. }
  pose (g := fold_left (fun g r => group_add (fst r) (snd r) g) rows1 []).
  destruct (groupby_fold rows1 [] (SSorted_nil _)) as [S [K L]].
  fold g in S, K, L.
  assert (U : normalize_cumulative dataframe =
              match index_min (mk_frame (Some UTC) None g),
                    index_max (mk_frame (Some UTC) None g) with
              | Some lo, Some hi =>
                  if is_unique (map fst g)
                  then Some (mk_frame None (Some "_date"%string)
                               (map (fun d => (d, or_zero (lookup d g)))
                                    (date_range lo hi)))
                  else None
              | _, _ => None
              end).
  { unfold normalize_cumulative, groupby_sum, reindex, index_min, index_max,
      index. simpl. fold rows1. fold g.
    destruct (map fst g); [reflexivity|].
    destruct (is_unique (z :: l)); reflexivity. }
  rewrite U. unfold index_min, index_max, index. simpl rows.
  rewrite (nodup_is_unique _ (sorted_lt_nodup _ S)).
  destruct (map fst g) as [|d0 t] eqn:Eg.
  { exfalso. destruct dataframe as [|r rs]; [congruence|].
    apply (K (key_day (fst r))). right. simpl. left. reflexivity. }
  destruct (fold_min_spec t d0) as [Imin Lmin].
  destruct (fold_max_spec t d0) as [Imax Lmax].
  assert (KK : forall x, In x (d0 :: t) <-> In x (days_of dataframe)).
  { intros x. rewrite D, K. simpl. tauto. }
  exists (fold_left Z.min t d0), (fold_left Z.max t d0).
  split; [apply KK, Imin|]. split; [apply KK, Imax|]. split.
  - intros d I. apply KK in I. split; [apply Lmin|apply Lmax]; exact I.
  - do 2 f_equal. apply map_ext. intros d. f_equal.
    rewrite L. simpl. rewrite add_counts_zero_l.
    apply (day_sum_label_sum true).
Qed.

Lemma day_sum_absent (d : Z) (dataframe : list (index_key * counts)) :
  ~ In d (days_of dataframe) -> day_sum d dataframe = zero_counts.
Proof.
  induction dataframe as [|r t IH]; intros H; [reflexivity|].
  unfold day_sum in *. simpl in *.
  destruct (key_day (fst r) =? d) eqn:E.
  - apply Z.eqb_eq in E. tauto.
  - apply IH. tauto.
Qed.

Lemma day_sum_app (d : Z) (a b : list (index_key * counts)) :
  day_sum d (a ++ b) = add_counts (day_sum d a) (day_sum d b).
Proof.
  unfold day_sum. rewrite filter_app, map_app.
  induction (map snd (filter (fun r => key_day (fst r) =? d) a)) as [|c t IH];
    simpl; [rewrite add_counts_zero_l; reflexivity|].
  rewrite IH, add_counts_assoc. reflexivity.
Qed.



(** ** Merging tables with no common key *)

Lemma fold_merge_key_absent (new_data : series) (ks : list index_key) :
  forall old_data : series,
    NoDup ks -> (forall k, In k ks -> ~ In k (keys old_data)) ->
    fold_left (merge_key new_data) ks old_data =
    old_data ++ flat_map (fun k => match dget k new_data with
                                   | Some v => [(k, v)]
                                   | None => []
                                   end) ks.
Proof.
  induction ks as [|a ks IH]; intros old_data ND H; simpl.
  - rewrite app_nil_r. reflexivity.
  - inversion ND as [|? ? Na ND']; subst.
    assert (Ha : ~ In a (keys old_data)) by (apply H; left; reflexivity).
    unfold merge_key at 2.
    destruct (dget a new_data) as [n|] eqn:En.
    + assert (C : dcontains a old_data = false).
      { destruct (dcontains a old_data) eqn:C; [|reflexivity].
        apply (contains_true index_key_eq_dec) in C. contradiction. }
      rewrite C. simpl negb. cbv iota. unfold dset.
      rewrite (set_absent index_key_eq_dec) by exact Ha.
      rewrite IH; [rewrite <- app_assoc; reflexivity|exact ND'|].
      intros k I. unfold keys. rewrite map_app, in_app_iff. simpl.
      intros [J|[J|[]]].
      * apply (H k); [right; exact I|exact J].
      * subst k. contradiction.
    + apply IH; [exact ND'|]. intros k I. apply H. right. exact I.
Qed.

Lemma items_of_keys (new_data : series) :
  NoDup (keys new_data) ->
  flat_map (fun k => match dget k new_data with
                     | Some v => [(k, v)]
                     | None => []
                     end) (keys new_data) = new_data.
Proof.
  induction new_data as [|[k v] t IH]; intros ND; [reflexivity|].
  inversion ND as [|? ? Nk ND']; subst. simpl.
  unfold dget at 1. simpl.
  destruct (index_key_eq_dec k k) as [_|N]; [|congruence]. simpl. f_equal.
  rewrite <- (IH ND') at 2.
  assert (G : forall ks, ~ In k ks ->
              flat_map (fun k0 => match dget k0 ((k, v) :: t) with
                                  | Some v0 => [(k0, v0)]
                                  | None => []
                                  end) ks =
              flat_map (fun k0 => match dget k0 t with
                                  | Some v0 => [(k0, v0)]
                                  | None => []
                                  end) ks).
  { induction ks as [|a ks IHks]; intros Hn; [reflexivity|].
    cbn [flat_map]. rewrite IHks by (simpl in Hn; tauto). f_equal.
    unfold dget. simpl.
    destruct (index_key_eq_dec a k) as [E|_]; [|reflexivity].
    exfalso. apply Hn. left. congruence. }
  apply G. exact Nk.
Qed.

Lemma merge_dict_disjoint (old_data new_data : series) :
  NoDup (keys new_data) ->
  (forall k, In k (keys new_data) -> ~ In k (keys old_data)) ->
  _merge_dict old_data new_data = old_data ++ new_data.
Proof.
  intros ND H. unfold _merge_dict.
  rewrite fold_merge_key_absent by assumption.
  rewrite items_of_keys by exact ND. reflexivity.
Qed.

(** Merging the same table a second time changes no entry of the
    dictionary. *)
Lemma merge_dict_twice (old_data new_data : series) (k : index_key) :
  dget k (_merge_dict (_merge_dict old_data new_data) new_data) =
  dget k (_merge_dict old_data new_data).
Proof. rewrite !get_merge_dict. apply merged_row_idem. Qed.

(** ** The cumulative table of one run *)

Lemma in_days_of_agg (data : list MetricEvent) (now d : Z) :
  In d (days_of (_get_counts data now)) <->
  In (DateKey d) (keys (_get_counts data now)).
Proof.
  unfold days_of. rewrite in_map_iff. split.
  - intros [[k c] [E I]]. simpl in E. apply (in_map fst) in I. simpl in I.
    pose proof I as I'. apply get_counts_keys in I'.
    destruct I' as [d' [Ek _]]. subst k. simpl in E. subst d'. exact I.
  - intros I. apply in_map_iff in I. destruct I as [[k c] [E I]].
    simpl in E. subst k. exists (DateKey d, c). split; [reflexivity|exact I].
Qed.

Lemma day_sum_date_keys (s : series) (d : Z) :
  NoDup (keys s) ->
  (forall k, In k (keys s) -> exists d', k = DateKey d') ->
  day_sum d s = or_zero (dget (DateKey d) s).
Proof.
  induction s as [|[k c] t IH]; intros ND HK; [reflexivity|].
  inversion ND as [|? ? Nk ND']; subst.
  destruct (HK k (or_introl eq_refl)) as [d' Ek]. subst k.
  assert (IHt : day_sum d t = or_zero (dget (DateKey d) t)).
  { apply IH; [exact ND'|]. intros k I. apply HK. right. exact I. }
  unfold day_sum, dget in *. simpl.
  destruct (index_key_eq_dec (DateKey d) (DateKey d')) as [E|N].
  - inversion E; subst d'. rewrite Z.eqb_refl. simpl.
    fold (day_sum d t). rewrite day_sum_absent.
    + apply add_counts_zero_r.
    + intros I. apply Nk. unfold days_of in I. apply in_map_iff in I.
      destruct I as [[k c'] [Ed I]]. simpl in Ed.
      apply (in_map fst) in I. simpl in I.
      destruct (HK k (or_intror I)) as [d' Ek]. subst k. simpl in Ed.
      subst d'. exact I.
  - assert (Ed : (d' =? d) = false).
    { apply Z.eqb_neq. intros H. apply N. congruence. }
    rewrite Ed. exact IHt.
Qed.

Lemma agg_not_empty (data : list MetricEvent) (now : Z) :
  from_dict (_get_counts data now) <> [].
Proof.
  intros E.
  assert (I : In (DateKey (to_date now)) (keys (_get_counts data now))).
  { apply get_counts_keys. exists (to_date now). split; [reflexivity|].
    right. lia. }
  unfold from_dict in E. rewrite E in I. destruct I.
Qed.

Lemma agg_get_day_events (data : list MetricEvent) (now d : Z) :
  or_zero (dget (DateKey d) (_get_counts data now)) = day_events d data.
Proof.
  destruct (in_dec index_key_eq_dec (DateKey d) (keys (_get_counts data now)))
    as [I|N].
  - apply get_counts_keys in I. destruct I as [d' [E H]].
    inversion E; subst d'. rewrite get_counts_get by exact H. reflexivity.
  - assert (Hn : has_event d data = false).
    { destruct (has_event d data) eqn:Eh; [|reflexivity].
      exfalso. apply N. apply get_counts_keys. eauto. }
    apply (get_none_not_in index_key_eq_dec) in N. unfold dget. rewrite N.
    simpl. symmetry. apply day_events_no_event, Hn.
Qed.

(** The first run: no merge, then the same normalisation as after a merge. *)
Lemma first_run_spec (data : list MetricEvent) (now : Z) :
  exists lo hi,
    In (DateKey lo) (keys (_get_counts data now)) /\
    In (DateKey hi) (keys (_get_counts data now)) /\
    (forall d, In (DateKey d) (keys (_get_counts data now)) -> lo <= d <= hi) /\
    _create_cumulative_dataframe (_get_counts data now) None =
    Some (mk_frame None (Some "_date"%string)
            (map (fun d => (d, or_zero (dget (DateKey d) (_get_counts data now))))
                 (date_range lo hi))).
Proof.
  unfold _create_cumulative_dataframe. cbv zeta.
  destruct (normalize_cumulative_spec _ (agg_not_empty data now))
    as [lo [hi [Ilo [Ihi [B E]]]]].
  unfold from_dict in *. exists lo, hi.
  split; [apply in_days_of_agg, Ilo|]. split; [apply in_days_of_agg, Ihi|].
  split; [intros d I; apply B, in_days_of_agg, I|].
  rewrite E. do 2 f_equal. apply map_ext. intros d. f_equal.
  apply day_sum_date_keys; [apply get_counts_nodup|].
  intros k I. apply get_counts_keys in I. destruct I as [d' [Ek _]]. eauto.
Qed.

(** C6, as stated, fails: with one event dated 15 days back, the first-run
    table has a row for the day in between (19710), which the aggregate does
    not have. *)
Lemma first_run_sparse_fails :
  ~ (forall (data : list MetricEvent) (now : Z) (df : DataFrame),
        _create_cumulative_dataframe (_get_counts data now) None = Some df ->
        forall d, In d (index df) ->
                  In (DateKey d) (keys (_get_counts data now))).
Proof.
  intros H.
  assert (E : exists df, _create_cumulative_dataframe
                           (_get_counts ex_old_event ex_now) None = Some df /\
                         In 19710 (index df)).
  { eexists. split; [vm_compute; reflexivity|]. vm_compute. tauto. }
  destruct E as [df [E I]].
  specialize (H ex_old_event ex_now df E 19710 I).
  vm_compute in H.
  repeat (destruct H as [H|H]; [discriminate H|]). exact H.
Qed.

(** C6 (amended): when no prior cumulative file is read, the table is the
    run's aggregate (already zero-filled by [_get_counts] over the 14 days
    ending today) after the same normalisation as a merge result: one row
    for every calendar date from the earliest to the latest date of the
    aggregate, carrying the aggregate's row for a date it has (the summed
    events of that date) and (0, 0) for a date it does not have. *)
Theorem first_run_cumulative (data : list MetricEvent) (now : Z) :
  let agg := _get_counts data now in
  exists lo hi df,
    _create_cumulative_dataframe agg None = Some df /\
    In (DateKey lo) (keys agg) /\ In (DateKey hi) (keys agg) /\
    (forall d, In (DateKey d) (keys agg) -> lo <= d <= hi) /\
    lo <= to_date now - 13 /\ to_date now <= hi /\
    rows df = map (fun d => (d, or_zero (dget (DateKey d) agg)))
                  (date_range lo hi) /\
    rows df = map (fun d => (d, day_events d data)) (date_range lo hi).
Proof.
  intros agg. unfold agg.
  destruct (first_run_spec data now) as [lo [hi [Ilo [Ihi [B E]]]]].
  exists lo, hi. eexists. split; [exact E|].
  split; [exact Ilo|]. split; [exact Ihi|]. split; [exact B|].
  assert (W : forall d, to_date now - 13 <= d <= to_date now ->
                        lo <= d <= hi).
  { intros d H. apply B, get_counts_keys. eauto. }
  split; [apply (W (to_date now - 13)); lia|].
  split; [apply (W (to_date now)); lia|].
  split; [reflexivity|]. simpl.
  apply map_ext. intros d. f_equal. apply agg_get_day_events.
Qed.

Lemma first_run_cumulative_witness :
  exists lo hi df,
    _create_cumulative_dataframe (_get_counts ex_old_event ex_now) None
    = Some df /\
    In (DateKey lo) (keys (_get_counts ex_old_event ex_now)) /\
    In (DateKey hi) (keys (_get_counts ex_old_event ex_now)) /\
    (forall d, In (DateKey d) (keys (_get_counts ex_old_event ex_now)) ->
               lo <= d <= hi) /\
    lo <= to_date ex_now - 13 /\ to_date ex_now <= hi /\
    rows df = map (fun d => (d, or_zero (dget (DateKey d)
                                           (_get_counts ex_old_event ex_now))))
                  (date_range lo hi) /\
    rows df = map (fun d => (d, day_events d ex_old_event)) (date_range lo hi).
Proof. exact (first_run_cumulative ex_old_event ex_now). Defined.

(** ** Merging into a persisted table *)


Lemma day_sum_stamp_keys (d : Z) (f : list (Z * counts)) :
  day_sum d (map (fun r => (StampKey (fst r), snd r)) f) = label_sum d f.
Proof.
  unfold day_sum, label_sum.
  induction f as [|r t IH]; simpl; [reflexivity|].
  destruct (fst r =? d); simpl; [f_equal|]; exact IH.
Qed.

(** The keys read from the file are timestamps, the keys of the aggregate
    are dates: [_merge_dict] finds no key of the aggregate in the old table
    and appends every row of it. *)
Lemma merge_file_agg (data : list MetricEvent) (now : Z) (f : list (Z * counts)) :
  _merge_dict (map (fun r => (StampKey (fst r), snd r)) f) (_get_counts data now)
  = map (fun r => (StampKey (fst r), snd r)) f ++ _get_counts data now.
Proof.
  apply merge_dict_disjoint; [apply get_counts_nodup|].
  intros k I J. apply get_counts_keys in I. destruct I as [d [E _]]. subst k.
  unfold keys in J. rewrite map_map in J. apply in_map_iff in J.
  destruct J as [r [E _]]. discriminate E.
Qed.

(** With a persisted table, every date gets the value of the file plus the
    value of the aggregate. *)
Lemma cumulative_merge_adds (data : list MetricEvent) (now : Z) (f : list (Z * counts)) :
  is_unique (map fst f) = true ->
  exists lo hi,
    _create_cumulative_dataframe (_get_counts data now) (Some f) =
    Some (mk_frame None (Some "_date"%string)
            (map (fun d => (d, add_counts (label_sum d f) (day_events d data)))
                 (date_range lo hi))).
Proof.
  intros U. unfold _create_cumulative_dataframe, to_dict_index. cbv zeta.
  rewrite U. unfold from_dict. rewrite merge_file_agg.
  set (old := map (fun r => (StampKey (fst r), snd r)) f).
  assert (NE : old ++ _get_counts data now <> []).
  { intros E. apply app_eq_nil in E. destruct E as [_ E].
    apply (agg_not_empty data now). exact E. }
  destruct (normalize_cumulative_spec _ NE) as [lo [hi [_ [_ [_ E]]]]].
  exists lo, hi. rewrite E. do 2 f_equal. apply map_ext. intros d. f_equal.
  rewrite day_sum_app. unfold old. rewrite day_sum_stamp_keys. f_equal.
  rewrite day_sum_date_keys.
  - apply agg_get_day_events.
  - apply get_counts_nodup.
  - intros k I. apply get_counts_keys in I. destruct I as [d' [Ek _]]. eauto.
Qed.

(** C8 (the code does otherwise): the table of a first run holds (10, 8) for
    2024-01-01; merging the same aggregate into it gives (20, 16), and
    merging the identical aggregate again gives (30, 24): the second merge
    changes the values. *)
Theorem merge_again_changes_values :
  exists df0 df1 df2,
    snd (get_views ex_events ex_now None) = Some df0 /\
    snd (get_views ex_events ex_now (persisted df0)) = Some df1 /\
    snd (get_views ex_events ex_now (persisted df1)) = Some df2 /\
    lookup 19723 (rows df0) = Some (mk_counts 10 8) /\
    lookup 19723 (rows df1) = Some (mk_counts 20 16) /\
    lookup 19723 (rows df2) = Some (mk_counts 30 24) /\
    df1 <> df2.
Proof.
  do 3 eexists.
  split; [vm_compute; reflexivity|].
  split; [vm_compute; reflexivity|].
  split; [vm_compute; reflexivity|].
  split; [vm_compute; reflexivity|].
  split; [vm_compute; reflexivity|].
  split; [vm_compute; reflexivity|].
  intros H. apply (f_equal (fun df => lookup 19723 (rows df))) in H.
  vm_compute in H. discriminate H.
Qed.



(** ** Ranked tables *)

Section KeyFacts.
Context {row : Type}.
Variable subset : row -> string.

Lemma last_with_key_none (k : string) (l : list row) :
  last_with_key subset k l = None <-> forall r, In r l -> subset r <> k.
Proof.
  induction l as [|x t IH]; simpl.
  - split; [intros _ r []|reflexivity].
  - destruct (last_with_key subset k t) as [r'|] eqn:E.
    + split; [discriminate|]. intros H. exfalso.
      assert (N : Some r' = None); [|discriminate N].
      apply IH. intros r I. apply H. right. exact I.
    + destruct (String.eqb (subset x) k) eqn:Ex.
      * apply String.eqb_eq in Ex. split; [discriminate|].
        intros H. exfalso. apply (H x); [left; reflexivity|exact Ex].
      * apply String.eqb_neq in Ex. split; [|reflexivity].
        intros _ r [Er|I]; [subst; exact Ex|].
        apply (proj1 IH eq_refl). exact I.
Qed.


Lemma last_with_key_app (k : string) (l1 l2 : list row) :
  last_with_key subset k (l1 ++ l2) =
  match last_with_key subset k l2 with
  | Some r => Some r
  | None => last_with_key subset k l1
  end.
Proof.
  induction l1 as [|x t IH]; simpl.
  - destruct (last_with_key subset k l2); reflexivity.
  - rewrite IH. destruct (last_with_key subset k l2); reflexivity.
Qed.


Lemma later_key_none (x : row) (t : list row) :
  existsb (fun r' => String.eqb (subset r') (subset x)) t = false <->
  forall r, In r t -> subset r <> subset x.
Proof.
  split.
  - intros E r I H.
    assert (T : existsb (fun r' => String.eqb (subset r') (subset x)) t = true).
    { apply existsb_exists. exists r. split; [exact I|].
      apply String.eqb_eq, H. }
    congruence.
  - intros H.
    destruct (existsb (fun r' => String.eqb (subset r') (subset x)) t) eqn:E;
      [|reflexivity].
    apply existsb_exists in E. destruct E as [r [I E]].
    apply String.eqb_eq in E. exfalso. apply (H r I E).
Qed.


Lemma rows_with_key_drop_duplicates (k : string) (l : list row) :
  rows_with_key subset k (drop_duplicates_last subset l) =
  match last_with_key subset k l with
  | Some r => [r]
  | None => []
  end.
Proof.
  induction l as [|x t IH]; simpl; [reflexivity|].
  destruct (existsb (fun r' => String.eqb (subset r') (subset x)) t) eqn:E.
  - rewrite IH. destruct (last_with_key subset k t) as [r|] eqn:L;
      [reflexivity|].
    destruct (String.eqb (subset x) k) eqn:Ex; [|reflexivity].
    apply String.eqb_eq in Ex. exfalso.
    apply existsb_exists in E. destruct E as [r [I Er]].
    apply String.eqb_eq in Er.
    apply (proj1 (last_with_key_none k t) L r I). congruence.
  - unfold rows_with_key in *. simpl.
    destruct (String.eqb (subset x) k) eqn:Ex.
    + apply String.eqb_eq in Ex.
      assert (L : last_with_key subset k t = None).
      { apply last_with_key_none. subst k.
        apply (proj1 (later_key_none x t) E). }
      rewrite IH, L. reflexivity.
    + rewrite IH. destruct (last_with_key subset k t); reflexivity.
Qed.

End KeyFacts.

Section SortFacts.
Context {row : Type}.
Variable by_column : row -> Z.

Lemma insert_desc_perm (r : row) (l : list row) :
  Permutation (insert_desc by_column r l) (r :: l).
Proof.
  induction l as [|x t IH]; simpl; [apply Permutation_refl|].
  destruct (by_column x <=? by_column r); [apply Permutation_refl|].
  eapply Permutation_trans; [apply perm_skip, IH|apply perm_swap].
Qed.

Lemma sort_values_desc_perm (l : list row) :
  Permutation (sort_values_desc by_column l) l.
Proof.
  induction l as [|r t IH]; simpl; [constructor|].
  eapply Permutation_trans; [apply insert_desc_perm|apply perm_skip, IH].
Qed.



Lemma filter_perm (f : row -> bool) (l l' : list row) :
  Permutation l l' -> Permutation (filter f l) (filter f l').
Proof.
  induction 1 as [|x l l' _ IH|x y l|l l' l'' _ IH1 _ IH2]; simpl.
  - constructor.
  - destruct (f x); [apply perm_skip|]; exact IH.
  - destruct (f x), (f y); try apply Permutation_refl. apply perm_swap.
  - eapply Permutation_trans; eassumption.
Qed.

End SortFacts.

Section TableFacts.
Context {row : Type}.
Variable subset : row -> string.
Variable by_column : row -> Z.

(** Deduplicated, then sorted: one row per key, the last one of its key. *)
Lemma rows_with_key_sorted (k : string) (l : list row) :
  rows_with_key subset k
    (sort_values_desc by_column (drop_duplicates_last subset l)) =
  match last_with_key subset k l with
  | Some r => [r]
  | None => []
  end.
Proof.
  rewrite <- (rows_with_key_drop_duplicates subset).
  pose proof (filter_perm (fun r => String.eqb (subset r) k) _ _
                (sort_values_desc_perm by_column
                   (drop_duplicates_last subset l))) as P.
  pose proof (rows_with_key_drop_duplicates subset k l) as R.
  unfold rows_with_key in *. rewrite R in *.
  apply Permutation_sym in P.
  destruct (last_with_key subset k l).
  - apply Permutation_length_1_inv in P. exact P.
  - apply Permutation_nil in P. exact P.
Qed.


End TableFacts.






(** * Further properties of the code *)

(** ** The aggregate of [_get_counts] *)

Lemma in_window_spec (now d : Z) :
  in_window now d = true <-> to_date now - 13 <= d <= to_date now.
Proof. unfold in_window. rewrite andb_true_iff, !Z.leb_le. tauto. Qed.

Lemma get_counts_date_entry (data : list MetricEvent) (now d : Z) :
  dget (DateKey d) (_get_counts data now) =
  if has_event d data || in_window now d
  then Some (day_events d data) else None.
Proof.
  destruct (has_event d data || in_window now d) eqn:E.
  - apply get_counts_get. apply orb_true_iff in E.
    rewrite in_window_spec in E. exact E.
  - apply (get_none_not_in index_key_eq_dec). intros I.
    apply get_counts_keys in I. destruct I as [d' [Ek H]].
    inversion Ek; subst d'. rewrite <- in_window_spec in H.
    apply orb_true_iff in H. congruence.
Qed.

Lemma get_counts_stamp_entry (data : list MetricEvent) (now d : Z) :
  dget (StampKey d) (_get_counts data now) = None.
Proof.
  apply (get_none_not_in index_key_eq_dec). intros I.
  apply get_counts_keys in I. destruct I as [d' [Ek _]]. discriminate Ek.
Qed.

(** X1: the aggregate has an entry for a day exactly when the day has an
    event or lies in the 14 days ending today; the entry holds the summed
    count and uniques of the events of that day; all keys are dates. *)
Theorem get_counts_entries (data : list MetricEvent) (now d : Z) :
  dget (DateKey d) (_get_counts data now) =
  (if has_event d data || in_window now d
   then Some (day_events d data) else None) /\
  dget (StampKey d) (_get_counts data now) = None.
Proof.
  split; [apply get_counts_date_entry|apply get_counts_stamp_entry].
Qed.

Lemma sum_counts_set (k : index_key) (v : counts) (d : series) :
  total (sum_counts (map snd (dset k v d))) + total (or_zero (dget k d)) =
  total (sum_counts (map snd d)) + total v /\
  unique (sum_counts (map snd (dset k v d))) + unique (or_zero (dget k d)) =
  unique (sum_counts (map snd d)) + unique v.
Proof.
  unfold dset, dget. induction d as [|[k' v'] r IH]; simpl.
  - lia.
  - destruct (index_key_eq_dec k k') as [E|N]; simpl; lia.
Qed.

Lemma counts_eq (a b : counts) :
  total a = total b -> unique a = unique b -> a = b.
Proof. destruct a, b. simpl. congruence. Qed.

Lemma sum_counts_count_item (acc : series) (item : MetricEvent) :
  sum_counts (map snd (count_item acc item)) =
  add_counts (sum_counts (map snd acc)) (event_counts item).
Proof.
  unfold count_item. cbv zeta.
  set (date := DateKey (to_date (timestamp item))).
  unfold dcontains, PyDict.contains. fold (dget date acc).
  destruct (dget date acc) as [c|] eqn:Ea; simpl negb; cbv iota.
  - rewrite Ea.
    pose proof (sum_counts_set date
                  (mk_counts (total c + count item) (unique c + uniques item))
                  acc) as [Ht Hu].
    rewrite Ea in Ht, Hu. simpl in Ht, Hu.
    apply counts_eq; simpl; lia.
  - pose proof (sum_counts_set date zero_counts acc) as [Ht Hu].
    rewrite Ea in Ht, Hu. simpl in Ht, Hu.
    assert (G : dget date (dset date zero_counts acc) = Some zero_counts)
      by (unfold dget, dset; apply get_set_same).
    rewrite G.
    pose proof (sum_counts_set date
                  (mk_counts (total zero_counts + count item)
                             (unique zero_counts + uniques item))
                  (dset date zero_counts acc)) as [Ht' Hu'].
    rewrite G in Ht', Hu'. simpl in Ht', Hu'.
    apply counts_eq; simpl; lia.
Qed.

Lemma sum_counts_fill_missing (acc : series) (date : Z) :
  sum_counts (map snd (fill_missing acc date)) = sum_counts (map snd acc).
Proof.
  unfold fill_missing, dcontains, PyDict.contains.
  fold (dget (DateKey date) acc).
  destruct (dget (DateKey date) acc) as [c|] eqn:Ea; simpl negb; cbv iota;
    [reflexivity|].
  pose proof (sum_counts_set (DateKey date) zero_counts acc) as [Ht Hu].
  rewrite Ea in Ht, Hu. simpl in Ht, Hu.
  apply counts_eq; lia.
Qed.

(** X2: the rows of the aggregate sum to the sum of the events: every event
    is counted once, and the zero rows of the window add nothing. *)
Theorem get_counts_conserves_totals (data : list MetricEvent) (now : Z) :
  sum_counts (map snd (_get_counts data now)) =
  sum_counts (map event_counts data).
Proof.
  unfold _get_counts. cbv zeta.
  assert (F : forall ds acc,
             sum_counts (map snd (fold_left fill_missing ds acc)) =
             sum_counts (map snd acc)).
  { induction ds as [|a ds IH]; intros acc; simpl; [reflexivity|].
    rewrite IH. apply sum_counts_fill_missing. }
  rewrite F.
  assert (C : forall l acc,
             sum_counts (map snd (fold_left count_item l acc)) =
             add_counts (sum_counts (map snd acc))
                        (sum_counts (map event_counts l))).
  { induction l as [|e l IH]; intros acc; simpl.
    - rewrite add_counts_zero_r. reflexivity.
    - rewrite IH, sum_counts_count_item, add_counts_assoc. reflexivity. }
  rewrite C. simpl. apply add_counts_zero_l.
Qed.

Lemma day_events_perm (d : Z) (data data' : list MetricEvent) :
  Permutation data data' -> day_events d data = day_events d data'.
Proof.
  induction 1 as [|x l l' _ IH|x y l|l l' l'' _ IH1 _ IH2].
  - reflexivity.
  - rewrite !day_events_cons, IH. reflexivity.
  - rewrite !day_events_cons.
    destruct (to_date (timestamp x) =? d), (to_date (timestamp y) =? d);
      try reflexivity.
    rewrite <- !add_counts_assoc, (add_counts_comm (event_counts y)).
    reflexivity.
  - congruence.
Qed.

Lemma has_event_perm (d : Z) (data data' : list MetricEvent) :
  Permutation data data' -> has_event d data = has_event d data'.
Proof.
  intros P.
  destruct (has_event d data) eqn:E, (has_event d data') eqn:E';
    try reflexivity; exfalso.
  - apply has_event_true in E. destruct E as [e [I Ee]].
    assert (T : has_event d data' = true).
    { apply has_event_true. exists e. split; [|exact Ee].
      apply (Permutation_in _ P). exact I. }
    congruence.
  - apply has_event_true in E'. destruct E' as [e [I Ee]].
    assert (T : has_event d data = true).
    { apply has_event_true. exists e. split; [|exact Ee].
      apply (Permutation_in _ (Permutation_sym P)). exact I. }
    congruence.
Qed.

(** X3: the entry of a key does not depend on the order in which the events
    were fetched. *)
Theorem get_counts_order_irrelevant (data data' : list MetricEvent) (now : Z) (k : index_key) :
  Permutation data data' ->
  dget k (_get_counts data now) = dget k (_get_counts data' now).
Proof.
  intros P. destruct k as [d|d].
  - rewrite !get_counts_date_entry.
    rewrite (has_event_perm d _ _ P), (day_events_perm d _ _ P). reflexivity.
  - rewrite !get_counts_stamp_entry. reflexivity.
Qed.

Lemma get_counts_order_irrelevant_witness :
  Permutation ex_events ex_events_swapped /\
  dget (DateKey 19723) (_get_counts ex_events ex_now) =
  dget (DateKey 19723) (_get_counts ex_events_swapped ex_now).
Proof.
  assert (P : Permutation ex_events ex_events_swapped) by apply perm_swap.
  split; [exact P|].
  exact (get_counts_order_irrelevant ex_events ex_events_swapped ex_now
           (DateKey 19723) P).
Defined.

Lemma day_events_nonneg (d : Z) (data : list MetricEvent) :
  (forall e, In e data -> 0 <= count e /\ 0 <= uniques e) ->
  0 <= total (day_events d data) /\ 0 <= unique (day_events d data).
Proof.
  induction data as [|e t IH]; intros H; [simpl; lia|].
  rewrite day_events_cons.
  assert (He : 0 <= count e /\ 0 <= uniques e) by (apply H; left; reflexivity).
  assert (Ht : 0 <= total (day_events d t) /\ 0 <= unique (day_events d t)).
  { apply IH. intros e' I. apply H. right. exact I. }
  destruct (to_date (timestamp e) =? d); simpl; lia.
Qed.

(** X4: when no event has a negative count or uniques value, no row of the
    aggregate has a negative field. *)
Theorem get_counts_nonnegative (data : list MetricEvent) (now : Z) (k : index_key) (c : counts) :
  (forall e, In e data -> 0 <= count e /\ 0 <= uniques e) ->
  dget k (_get_counts data now) = Some c ->
  0 <= total c /\ 0 <= unique c.
Proof.
  intros H G. destruct k as [d|d].
  - rewrite get_counts_date_entry in G.
    destruct (has_event d data || in_window now d); [|discriminate G].
    inversion G; subst c. apply day_events_nonneg, H.
  - rewrite get_counts_stamp_entry in G. discriminate G.
Qed.

Lemma get_counts_nonnegative_witness :
  (forall e, In e ex_events -> 0 <= count e /\ 0 <= uniques e) /\
  dget (DateKey 19723) (_get_counts ex_events ex_now) = Some (mk_counts 10 8) /\
  0 <= 10 /\ 0 <= 8.
Proof.
  assert (H : forall e, In e ex_events -> 0 <= count e /\ 0 <= uniques e).
  { intros e [E|[E|[]]]; subst e; simpl; lia. }
  split; [exact H|]. split; [reflexivity|].
  exact (get_counts_nonnegative ex_events ex_now (DateKey 19723)
           (mk_counts 10 8) H eq_refl).
Defined.

(** ** The snapshot, for any list of events *)

Lemma sorted_agg_sorted (data : list MetricEvent) (now : Z) :
  StronglySorted Z.lt
    (index (sort_index (to_datetime false (from_dict (_get_counts data now))))).
Proof.
  unfold index. simpl. unfold from_dict.
  apply sorted_le_nodup_lt; [apply sort_rows_sorted|].
  eapply Permutation_NoDup.
  - apply Permutation_sym, Permutation_map, sort_rows_perm.
  - rewrite map_map. simpl.
    change (NoDup (map (fun x => key_day (fst x)) (_get_counts data now))).
    rewrite <- (map_map fst key_day).
    apply NoDup_map_NoDup_ForallPairs;
      [apply date_keys_inj|apply get_counts_nodup].
Qed.

Lemma in_sorted_agg (data : list MetricEvent) (now d : Z) (c : counts) :
  In (d, c)
     (rows (sort_index (to_datetime false (from_dict (_get_counts data now)))))
  <-> dget (DateKey d) (_get_counts data now) = Some c.
Proof.
  simpl. unfold from_dict. split.
  - intros I. apply (Permutation_in _ (sort_rows_perm _)) in I.
    apply in_agg_rows, I.
  - intros G. apply (Permutation_in _ (Permutation_sym (sort_rows_perm _))).
    apply (get_in index_key_eq_dec) in G.
    apply in_map_iff. exists (DateKey d, c). split; [reflexivity|exact G].
Qed.

Lemma skipn_searchsorted (x : Z) (l : list (Z * counts)) :
  StronglySorted Z.lt (map fst l) ->
  skipn (searchsorted_right x (map fst l)) l =
  filter (fun r => x <? fst r) l.
Proof.
  unfold searchsorted_right.
  induction l as [|a t IH]; intros S; [reflexivity|].
  simpl in S. inversion S as [|? ? St Ha]; subst. simpl.
  destruct (fst a <=? x) eqn:E.
  - apply Z.leb_le in E.
    assert (E' : (x <? fst a) = false) by (apply Z.ltb_ge; exact E).
    rewrite E'. simpl. apply IH, St.
  - apply Z.leb_gt in E.
    assert (E' : (x <? fst a) = true) by (apply Z.ltb_lt; exact E).
    rewrite E'. rewrite Forall_forall in Ha.
    rewrite filter_le_nil.
    + simpl. f_equal. symmetry. apply forallb_filter_id.
      apply forallb_forall. intros r I. apply Z.ltb_lt.
      specialize (Ha (fst r) (in_map fst _ _ I)). lia.
    + intros d I. specialize (Ha d I). lia.
Qed.

Lemma sorted_last_max (l : list Z) :
  StronglySorted Z.lt l -> l <> [] ->
  In (List.last l 0) l /\ forall d, In d l -> d <= List.last l 0.
Proof.
  induction l as [|a t IH]; intros S NE; [congruence|].
  inversion S as [|? ? St Ha]; subst. rewrite Forall_forall in Ha.
  destruct t as [|b t'].
  - simpl. split; [auto|]. intros d [E|[]]. lia.
  - assert (NE' : b :: t' <> []) by discriminate.
    destruct (IH St NE') as [I M].
    change (List.last (a :: b :: t') 0) with (List.last (b :: t') 0).
    split; [right; exact I|].
    intros d [E|I'].
    + subst d. specialize (Ha _ I). lia.
    + apply M, I'.
Qed.

Lemma sorted_filter_rows (f : Z * counts -> bool) (l : list (Z * counts)) :
  StronglySorted Z.lt (map fst l) ->
  StronglySorted Z.lt (map fst (filter f l)).
Proof.
  induction l as [|a t IH]; intros S; [constructor|].
  simpl in S. inversion S as [|? ? St Ha]; subst. simpl.
  destruct (f a); [|apply IH, St].
  simpl. constructor; [apply IH, St|].
  rewrite Forall_forall in *. intros d I. apply Ha.
  apply in_map_iff in I. destruct I as [r [E I]]. apply filter_In in I.
  apply in_map_iff. exists r. tauto.
Qed.

Lemma sorted_length_bound (l : list Z) :
  forall a b : Z,
    StronglySorted Z.lt l -> (forall d, In d l -> a <= d <= b) ->
    Z.of_nat (List.length l) <= Z.max 0 (b - a + 1).
Proof.
  induction l as [|h t IH]; intros a b S H; [simpl; lia|].
  inversion S as [|? ? St Hh]; subst. rewrite Forall_forall in Hh.
  assert (Hb : a <= h <= b) by (apply H; left; reflexivity).
  assert (B : Z.of_nat (List.length t) <= Z.max 0 (b - (h + 1) + 1)).
  { apply IH; [exact St|]. intros d I. specialize (Hh d I).
    specialize (H d (or_intror I)). lia. }
  simpl List.length. lia.
Qed.

(** The snapshot of an aggregate: the rows of the 14 days ending with the
    latest day of the aggregate. *)
Lemma snapshot_general (data : list MetricEvent) (now : Z) :
  exists L,
    to_date now <= L /\
    In (DateKey L) (keys (_get_counts data now)) /\
    (forall d, In (DateKey d) (keys (_get_counts data now)) -> d <= L) /\
    (forall d c,
        In (d, c) (rows (_create_snapshot_dataframe (_get_counts data now)))
        <-> L - 14 < d /\ dget (DateKey d) (_get_counts data now) = Some c) /\
    StronglySorted Z.lt
      (index (_create_snapshot_dataframe (_get_counts data now))).
Proof.
  unfold _create_snapshot_dataframe. cbv zeta.
  pose proof (sorted_agg_sorted data now) as S.
  pose proof (in_sorted_agg data now) as M.
  set (df := sort_index (to_datetime false (from_dict (_get_counts data now))))
    in *.
  assert (K : forall d, In d (index df) <->
                        In (DateKey d) (keys (_get_counts data now))).
  { intros d. unfold index. split.
    - intros I. apply in_map_iff in I. destruct I as [[d' c] [E I]].
      simpl in E. subst d'. apply M in I.
      apply (get_some_in index_key_eq_dec) in I. exact I.
    - intros I. apply (in_keys_get index_key_eq_dec) in I.
      destruct I as [c G]. apply M in G.
      apply (in_map fst) in G. exact G. }
  assert (NE : index df <> []).
  { intros E. assert (I : In (to_date now) (index df)).
    { apply K, get_counts_keys. exists (to_date now).
      split; [reflexivity|]. right. lia. }
    rewrite E in I. destruct I. }
  destruct (sorted_last_max _ S NE) as [IL ML].
  exists (List.last (index df) 0).
  assert (R : rows (last_offset 14 df) =
              filter (fun r => List.last (index df) 0 - 14 <? fst r) (rows df)).
  { unfold last_offset. destruct (rows df) as [|r t] eqn:Er.
    - unfold index in NE. rewrite Er in NE. simpl in NE. congruence.
    - simpl rows. rewrite <- Er. unfold index at 2. apply skipn_searchsorted.
      exact S. }
  split; [apply ML, K, get_counts_keys; exists (to_date now);
          split; [reflexivity|right; lia]|].
  split; [apply K, IL|].
  split; [intros d I; apply ML, K, I|].
  split.
  - intros d c. rewrite R, filter_In, M. simpl. rewrite Z.ltb_lt. tauto.
  - unfold index at 1. rewrite R. apply sorted_filter_rows. exact S.
Qed.

(** X5: for any list of events, the snapshot covers the 14 days ending with
    the latest day of the aggregate (today, or the day of a later-dated
    event): its labels are strictly ascending, it has at most 14 rows, and a
    day within that span has a row exactly when the aggregate has an entry
    for it, with the same values. *)
Theorem snapshot_window (data : list MetricEvent) (now : Z) :
  let agg := _get_counts data now in
  let snapshot := _create_snapshot_dataframe agg in
  exists L,
    to_date now <= L /\
    In (DateKey L) (keys agg) /\
    (forall d, In (DateKey d) (keys agg) -> d <= L) /\
    (forall d c, In (d, c) (rows snapshot) <->
                 L - 14 < d /\ dget (DateKey d) agg = Some c) /\
    StronglySorted Z.lt (index snapshot) /\
    (List.length (rows snapshot) <= 14)%nat.
Proof.
  intros agg snapshot. unfold snapshot, agg.
  destruct (snapshot_general data now) as [L [HL [IL [ML [M S]]]]].
  exists L. repeat (split; [assumption|]).
  assert (B : Z.of_nat (List.length
                          (index (_create_snapshot_dataframe
                                    (_get_counts data now)))) <=
              Z.max 0 (L - (L - 13) + 1)).
  { apply sorted_length_bound; [exact S|]. intros d I.
    unfold index in I. apply in_map_iff in I. destruct I as [[d' c] [E I]].
    simpl in E. subst d'. apply M in I. destruct I as [Hd G].
    apply (get_some_in index_key_eq_dec) in G. apply ML in G. lia. }
  unfold index in B. rewrite length_map in B. lia.
Qed.

Lemma snapshot_rows_no_future (data : list MetricEvent) (now : Z) :
  (forall e, In e data -> to_date (timestamp e) <= to_date now) ->
  rows (_create_snapshot_dataframe (_get_counts data now)) =
  map (fun d => (d, day_events d data))
      (date_range (to_date now - 13) (to_date now)).
Proof.
  intros H.
  destruct (snapshot_general data now) as [L [HL [IL [ML [M S]]]]].
  assert (EL : L = to_date now).
  { apply get_counts_keys in IL. destruct IL as [d [E [He|Hw]]];
      inversion E; subst d; [|lia].
    apply has_event_true in He. destruct He as [e [I Ee]].
    specialize (H e I). lia. }
  subst L.
  set (snap := _create_snapshot_dataframe (_get_counts data now)) in *.
  assert (I : index snap = date_range (to_date now - 13) (to_date now)).
  { apply sorted_lt_unique; [exact S|apply date_range_sorted|].
    intros d. rewrite in_date_range. unfold index. split.
    - intros J. apply in_map_iff in J. destruct J as [[d' c] [E J]].
      simpl in E. subst d'. apply M in J. destruct J as [Hd G].
      apply (get_some_in index_key_eq_dec) in G. apply ML in G. lia.
    - intros Hd.
      assert (G : dget (DateKey d) (_get_counts data now)
                  = Some (day_events d data))
        by (apply get_counts_get; right; exact Hd).
      assert (J : In (d, day_events d data) (rows snap))
        by (apply M; split; [lia|exact G]).
      apply (in_map fst) in J. exact J. }
  rewrite <- I. apply rows_rebuild. intros d c J.
  apply M in J. destruct J as [_ G].
  pose proof (agg_get_day_events data now d) as A. rewrite G in A.
  simpl in A. exact A.
Qed.

(** X6: when no event is dated after today, the snapshot is exactly the 14
    rows of today-13, ..., today with the summed events of each day; events
    dated before the window do not appear in it. *)
Theorem snapshot_drops_older_events (data : list MetricEvent) (now : Z) :
  (forall e, In e data -> to_date (timestamp e) <= to_date now) ->
  rows (_create_snapshot_dataframe (_get_counts data now)) =
  map (fun d => (d, day_events d data))
      (date_range (to_date now - 13) (to_date now)).
Proof. apply snapshot_rows_no_future. Qed.

Lemma snapshot_drops_older_events_witness :
  (forall e, In e ex_old_event -> to_date (timestamp e) <= to_date ex_now) /\
  rows (_create_snapshot_dataframe (_get_counts ex_old_event ex_now)) =
  map (fun d => (d, day_events d ex_old_event))
      (date_range (to_date ex_now - 13) (to_date ex_now)).
Proof.
  assert (H : forall e, In e ex_old_event ->
                        to_date (timestamp e) <= to_date ex_now).
  { intros e [E|[]]; subst e; vm_compute; discriminate. }
  split; [exact H|].
  exact (snapshot_drops_older_events ex_old_event ex_now H).
Defined.

(** ** More on [_merge_dict] *)

Lemma newer_wins_merged (n o : counts) :
  newer_wins n (if newer_wins n o then n else o) = false.
Proof.
  destruct (newer_wins n o) eqn:E; [|exact E].
  unfold newer_wins. rewrite !Z.gtb_ltb, !Z.ltb_irrefl. reflexivity.
Qed.

Lemma newer_wins_false (n m : counts) :
  newer_wins n m = false <-> total n <= total m /\ unique n <= unique m.
Proof.
  unfold newer_wins. rewrite orb_false_iff, !Z.gtb_ltb, !Z.ltb_ge. tauto.
Qed.

(** X7: after the merge, the row of every key of the new table is at least
    the new row in both fields. *)
Theorem merge_dict_dominates_new (old_data new_data : series) (k : index_key) (n : counts) :
  dget k new_data = Some n ->
  exists m,
    dget k (_merge_dict old_data new_data) = Some m /\
    total n <= total m /\ unique n <= unique m.
Proof.
  intros Hn. rewrite get_merge_dict, Hn. simpl.
  destruct (dget k old_data) as [o|].
  - eexists. split; [reflexivity|].
    apply newer_wins_false, newer_wins_merged.
  - exists n. split; [reflexivity|lia].
Qed.

Lemma merge_dict_dominates_new_witness :
  dget (StampKey 19724) ex_new_frame = Some (mk_counts 3 0) /\
  exists m,
    dget (StampKey 19724) (_merge_dict ex_old_frame ex_new_frame) = Some m /\
    3 <= total m /\ 0 <= unique m.
Proof.
  split; [reflexivity|].
  exact (merge_dict_dominates_new ex_old_frame ex_new_frame (StampKey 19724)
           (mk_counts 3 0) eq_refl).
Defined.

Lemma keys_merge_key (new_data old_data : series) (key : index_key) :
  exists extra,
    keys (merge_key new_data old_data key) = keys old_data ++ extra.
Proof.
  unfold merge_key.
  assert (P : forall n, exists extra,
               keys (dset key n old_data) = keys old_data ++ extra).
  { intros n. unfold dset.
    destruct (in_dec index_key_eq_dec key (keys old_data)) as [I|N].
    - exists []. rewrite app_nil_r.
      apply (keys_set_present index_key_eq_dec), I.
    - exists [key]. rewrite (set_absent index_key_eq_dec) by exact N.
      unfold keys. rewrite map_app. reflexivity. }
  assert (Q : exists extra, keys old_data = keys old_data ++ extra)
    by (exists []; rewrite app_nil_r; reflexivity).
  destruct (dget key new_data) as [n|]; [|exact Q].
  destruct (negb (dcontains key old_data)); [apply P|].
  destruct (dget key old_data) as [o|]; [|exact Q].
  destruct (newer_wins n o); [apply P|exact Q].
Qed.

Lemma nodup_merge_key (new_data old_data : series) (key : index_key) :
  NoDup (keys old_data) -> NoDup (keys (merge_key new_data old_data key)).
Proof.
  intros H. unfold merge_key.
  destruct (dget key new_data) as [n|]; [|exact H].
  destruct (negb (dcontains key old_data)); [apply nodup_keys_set, H|].
  destruct (dget key old_data) as [o|]; [|exact H].
  destruct (newer_wins n o); [apply nodup_keys_set, H|exact H].
Qed.

Lemma in_keys_merge_dict (old_data new_data : series) (k : index_key) :
  In k (keys (_merge_dict old_data new_data)) <->
  In k (keys old_data) \/ In k (keys new_data).
Proof.
  rewrite <- !(contains_true index_key_eq_dec).
  unfold PyDict.contains.
  fold (dget k (_merge_dict old_data new_data)) (dget k old_data)
       (dget k new_data).
  rewrite get_merge_dict.
  destruct (dget k old_data), (dget k new_data); simpl; split;
    auto; intros [H|H]; auto.
Qed.

(** X8: the merged dictionary has exactly the keys of the two tables; the
    keys of the old table keep their positions, new keys are appended; and
    no key is duplicated when the old table had none duplicated. *)
Theorem merge_dict_keys (old_data new_data : series) :
  (forall k, In k (keys (_merge_dict old_data new_data)) <->
             In k (keys old_data) \/ In k (keys new_data)) /\
  (exists extra, keys (_merge_dict old_data new_data) = keys old_data ++ extra) /\
  (NoDup (keys old_data) -> NoDup (keys (_merge_dict old_data new_data))).
Proof.
  split; [|split].
  - intros k. apply in_keys_merge_dict.
  - unfold _merge_dict. generalize (keys new_data) as ks. intros ks.
    revert old_data. induction ks as [|a ks IH]; intros old_data; simpl.
    + exists []. rewrite app_nil_r. reflexivity.
    + destruct (IH (merge_key new_data old_data a)) as [e1 E1].
      destruct (keys_merge_key new_data old_data a) as [e2 E2].
      exists (e2 ++ e1). rewrite E1, E2, app_assoc. reflexivity.
  - unfold _merge_dict. generalize (keys new_data) as ks. intros ks.
    revert old_data. induction ks as [|a ks IH]; intros old_data H; simpl.
    + exact H.
    + apply IH, nodup_merge_key, H.
Qed.

Lemma merge_key_fixed (new_data d : series) (key : index_key) (n m : counts) :
  dget key new_data = Some n -> dget key d = Some m ->
  newer_wins n m = false ->
  merge_key new_data d key = d.
Proof.
  intros Hn Hm W. unfold merge_key, dcontains, PyDict.contains.
  fold (dget key d). rewrite Hn, Hm, W. reflexivity.
Qed.

(** X9: merging the same table a second time into the result leaves the
    dictionary as it is (entries and order). *)
Theorem merge_dict_idempotent (old_data new_data : series) :
  _merge_dict (_merge_dict old_data new_data) new_data =
  _merge_dict old_data new_data.
Proof.
  set (m1 := _merge_dict old_data new_data).
  assert (F : forall ks d,
             (forall k, In k ks -> merge_key new_data d k = d) ->
             fold_left (merge_key new_data) ks d = d).
  { induction ks as [|a ks IH]; intros d H; simpl; [reflexivity|].
    rewrite (H a) by (left; reflexivity).
    apply IH. intros k I. apply H. right. exact I. }
  unfold _merge_dict at 1. apply F. intros k I.
  apply (in_keys_get index_key_eq_dec) in I. destruct I as [n Hn].
  fold (dget k new_data) in Hn.
  assert (G : dget k m1 = merged_row (dget k old_data) (Some n)).
  { unfold m1. rewrite get_merge_dict, Hn. reflexivity. }
  destruct (dget k old_data) as [o|]; simpl in G.
  - eapply merge_key_fixed; [exact Hn|exact G|apply newer_wins_merged].
  - eapply merge_key_fixed; [exact Hn|exact G|].
    apply newer_wins_false. lia.
Qed.

(** ** The cumulative table, with and without a persisted file *)







Lemma window_in_keys (data : list MetricEvent) (now d : Z) :
  to_date now - 13 <= d <= to_date now ->
  In (DateKey d) (keys (_get_counts data now)).
Proof. intros H. apply get_counts_keys. eauto. Qed.










(** X14: on a first run with every event dated within the 14 days ending
    today, the cumulative table has the same rows as the snapshot. *)
Theorem first_run_cumulative_is_snapshot (views : list MetricEvent) (now : Z) :
  (forall e, In e views ->
             to_date now - 13 <= to_date (timestamp e) <= to_date now) ->
  exists df,
    snd (get_views views now None) = Some df /\
    rows df = rows (fst (get_views views now None)).
Proof.
  intros Hw. simpl fst. simpl snd.
  destruct (first_run_spec views now) as [lo [hi [Ilo [Ihi [B E]]]]].
  assert (K : forall d, In (DateKey d) (keys (_get_counts views now)) ->
                        to_date now - 13 <= d <= to_date now).
  { intros d I. apply get_counts_keys in I.
    destruct I as [d' [Ek [He|Hd]]]; inversion Ek; subst d'; [|exact Hd].
    apply has_event_true in He. destruct He as [e [Ie Ee]].
    rewrite <- Ee. apply Hw, Ie. }
  assert (W1 : In (DateKey (to_date now - 13)) (keys (_get_counts views now)))
    by (apply window_in_keys; lia).
  assert (W2 : In (DateKey (to_date now)) (keys (_get_counts views now)))
    by (apply window_in_keys; lia).
  assert (Elo : lo = to_date now - 13).
  { specialize (K lo Ilo). specialize (B _ W1). lia. }
  assert (Ehi : hi = to_date now).
  { specialize (K hi Ihi). specialize (B _ W2). lia. }
  subst lo hi. eexists. split; [exact E|].
  rewrite snapshot_rows_no_future
    by (intros e Ie; specialize (Hw e Ie); lia).
  simpl rows. apply map_ext. intros d. f_equal. apply agg_get_day_events.
Qed.

Lemma first_run_cumulative_is_snapshot_witness :
  (forall e, In e ex_events ->
             to_date ex_now - 13 <= to_date (timestamp e) <= to_date ex_now) /\
  exists df,
    snd (get_views ex_events ex_now None) = Some df /\
    rows df = rows (fst (get_views ex_events ex_now None)).
Proof.
  assert (H : forall e, In e ex_events ->
                        to_date ex_now - 13 <= to_date (timestamp e)
                        <= to_date ex_now).
  { intros e [E|[E|[]]]; subst e; vm_compute; split; discriminate. }
  split; [exact H|].
  exact (first_run_cumulative_is_snapshot ex_events ex_now H).
Defined.

(** ** More on ranked tables *)

Section MoreKeyFacts.
Context {row : Type}.
Variable subset : row -> string.

Lemma last_with_key_some (k : string) (l : list row) (r : row) :
  last_with_key subset k l = Some r -> In r l /\ subset r = k.
Proof.
  induction l as [|x t IH]; simpl; [discriminate|].
  destruct (last_with_key subset k t) as [r'|].
  - intros E. inversion E; subst r'. destruct (IH eq_refl) as [I K].
    split; [right; exact I|exact K].
  - destruct (String.eqb (subset x) k) eqn:Ex; [|discriminate].
    intros E. inversion E; subst x. apply String.eqb_eq in Ex.
    split; [left; reflexivity|exact Ex].
Qed.

Lemma last_with_key_in (k : string) (l : list row) :
  In k (map subset l) -> exists r, last_with_key subset k l = Some r.
Proof.
  intros I. destruct (last_with_key subset k l) as [r|] eqn:E; [eauto|].
  exfalso. apply in_map_iff in I. destruct I as [x [Ex Ix]].
  apply (proj1 (last_with_key_none subset k l) E x Ix Ex).
Qed.

Lemma in_rows_with_key (k : string) (l : list row) (r : row) :
  In r (rows_with_key subset k l) <-> In r l /\ subset r = k.
Proof.
  unfold rows_with_key. rewrite filter_In, String.eqb_eq. reflexivity.
Qed.





End MoreKeyFacts.

Lemma rows_with_key_merged (m : metric_type) (old_data data : list (ranked_row m)) (k : string) :
  rows_with_key (key_of m) k (_create_referral_dataframe m data (Some old_data))
  = option_list
      (match last_with_key (key_of m) k data with
       | Some r => Some r
       | None => last_with_key (key_of m) k old_data
       end).
Proof.
  simpl. rewrite rows_with_key_sorted, last_with_key_app.
  destruct (last_with_key (key_of m) k data);
    [reflexivity|destruct (last_with_key (key_of m) k old_data); reflexivity].
Qed.






Lemma fetched_key_in_cumulative (m : metric_type) (data : list (ranked_row m)) (file : option (list (ranked_row m))) (k : string) :
  In k (map (key_of m) data) ->
  exists r, In r (_create_referral_dataframe m data file) /\
            key_of m r = k /\ In r data.
Proof.
  intros I. destruct file as [old_data|].
  - destruct (last_with_key_in (key_of m) k data I) as [r E].
    pose proof (rows_with_key_merged m old_data data k) as R.
    rewrite E in R. simpl option_list in R.
    assert (J : In r (rows_with_key (key_of m) k
                        (_create_referral_dataframe m data (Some old_data))))
      by (rewrite R; left; reflexivity).
    apply in_rows_with_key in J. apply last_with_key_some in E.
    exists r. tauto.
  - apply in_map_iff in I. destruct I as [r [E I]]. exists r. simpl. auto.
Qed.

(** X18: [get_top_referral_sources] and [get_top_referral_paths] return the
    fetch as received as the snapshot, and a cumulative table in which every
    fetched key is present with a row of this fetch, whether or not a prior
    file could be read. *)
Theorem referral_entry_points :
  (forall sources file,
      fst (get_top_referral_sources sources file) = sources /\
      forall k, In k (map referrer sources) ->
                exists r, In r (snd (get_top_referral_sources sources file)) /\
                          referrer r = k /\ In r sources) /\
  (forall paths file,
      fst (get_top_referral_paths paths file) = paths /\
      forall k, In k (map path paths) ->
                exists r, In r (snd (get_top_referral_paths paths file)) /\
                          path r = k /\ In r paths).
Proof.
  split; intros data file; (split; [reflexivity|]); intros k I.
  - exact (fetched_key_in_cumulative referral_sources data file k I).
  - exact (fetched_key_in_cumulative referral_paths data file k I).
Qed.
